(** * Content Analysis Tool: a shallow embedding and its properties

    This development embeds
    [src/seo_agency/tools/content_analysis_tool.py] (class
    [ContentAnalysisTool]) and proves properties of the composite SEO
    score it computes.

    Conventions of the embedding:
    - a Python [str] is the list of its code points ([str := list N]);
    - the parts of the Unicode database the tool consults ([str.lower],
      whitespace and alphanumeric classification) are the fields of the
      class [Unicode]; the instance [latin1] gives CPython's values for
      the code points U+0000 to U+00FF;
    - a Python [float] is the rational number it denotes; every float
      operation rounds its exact result to 53 significant bits, ties to
      even ([fl]);
    - Python exceptions are the [Raise] results of the [result] monad;
    - the insertion-ordered [dict] of per-keyword results is an
      association list updated in place ([dict_set]). *)

From Stdlib Require Import Ascii String DecimalString.
From Stdlib Require Import ZArith QArith Bool Arith Lia List.
Import ListNotations.

Set Implicit Arguments.

(** ** Strings *)

Module Str.

Definition char := N.
Definition str := list N.

(** An ASCII literal of the source as a list of code points. *)
Definition u (s : string) : str := List.map N_of_ascii (list_ascii_of_string s).

Definition eqb (a b : str) : bool :=
  if list_eq_dec N.eq_dec a b then true else false.

(** [sub] is a prefix of [s]. *)
Fixpoint startswith (sub s : str) : bool :=
  match sub, s with
  | [], _ => true
  | _ :: _, [] => false
  | a :: sub', b :: s' => N.eqb a b && startswith sub' s'
  end.

(** Left-to-right scan for non-overlapping occurrences of a non-empty
    [sub]: [skip] counts the characters of an occurrence already
    recognised that are still to be passed over. *)
Fixpoint count_from (sub : str) (skip : nat) (s : str) : nat :=
  match s with
  | [] => 0
  | _ :: s' =>
      match skip with
      | S k => count_from sub k s'
      | O => if startswith sub s
             then S (count_from sub (length sub - 1) s')
             else count_from sub 0 s'
      end
  end.

(** [s.count(sub)]: the number of non-overlapping occurrences; the
    empty string occurs between all characters. *)
Definition count (s sub : str) : nat :=
  match sub with
  | [] => S (length s)
  | _ => count_from sub 0 s
  end.

(** [sub in s] *)
Fixpoint contains (sub s : str) : bool :=
  startswith sub s ||
  match s with
  | [] => false
  | _ :: s' => contains sub s'
  end.

(** [sep.join(l)] *)
Fixpoint join (sep : str) (l : list str) : str :=
  match l with
  | [] => []
  | [x] => x
  | x :: l' => x ++ sep ++ join sep l'
  end.

(** [s.split(sep)] for a non-empty separator: empty pieces are kept. *)
Fixpoint split_from (sep : str) (skip : nat) (cur : str) (s : str) : list str :=
  match s with
  | [] => [rev cur]
  | c :: s' =>
      match skip with
      | S k => split_from sep k cur s'
      | O => if startswith sep s
             then rev cur :: split_from sep (length sep - 1) [] s'
             else split_from sep 0 (c :: cur) s'
      end
  end.

Definition split_sep (s sep : str) : list str := split_from sep 0 [] s.

(** [s[i:j]] for [0 <= i <= j]. *)
Definition slice (s : str) (i j : nat) : str := firstn (j - i) (skipn i s).

(** [str(n)] for an integer. *)
Definition of_Z (z : Z) : str := u (NilZero.string_of_int (Z.to_int z)).

End Str.

Import Str.

(** ** The Unicode database *)

(** What the tool needs of CPython's Unicode tables: [str.lower],
    [str.isspace] of a character (also the regular expression class
    [\s], and what [str.split()] and [str.strip()] remove) and
    [str.isalnum] of a character (with [_], the class [\w]). *)
Class Unicode := {
  lower : str -> str;
  isspace : char -> bool;
  isalnum : char -> bool
}.

Module Latin1.

(** Lower case of U+0000..U+00FF: A-Z and the capital letters
    U+00C0..U+00DE except the multiplication sign U+00D7. *)
Definition lower_char (c : char) : char :=
  if ((65 <=? c) && (c <=? 90) ||
      (192 <=? c) && (c <=? 222) && negb (c =? 215))%N
  then (c + 32)%N else c.

(** Whitespace: TAB, LF, VT, FF, CR, FS, GS, RS, US, SPACE, NEL, NBSP. *)
Definition isspace (c : char) : bool :=
  ((9 <=? c) && (c <=? 13) || (28 <=? c) && (c <=? 32) ||
   (c =? 133) || (c =? 160))%N.

(** Letters and numeric characters: 0-9, A-Z, a-z, feminine and
    masculine ordinal indicators, micro sign, superscripts 1 2 3,
    the fractions, and the letters U+00C0..U+00FF without the
    multiplication and division signs. *)
Definition isalnum (c : char) : bool :=
  ((48 <=? c) && (c <=? 57) || (65 <=? c) && (c <=? 90) ||
   (97 <=? c) && (c <=? 122) ||
   (c =? 170) || (c =? 181) || (c =? 186) ||
   (c =? 178) || (c =? 179) || (c =? 185) ||
   (188 <=? c) && (c <=? 190) ||
   (192 <=? c) && (c <=? 255) && negb (c =? 215) && negb (c =? 247))%N.

End Latin1.

(** CPython's tables on the code points below U+0100; a code point
    above is left as it is by [lower] and is in neither class. *)
#[global] Instance latin1 : Unicode := {
  lower := List.map Latin1.lower_char;
  isspace := Latin1.isspace;
  isalnum := Latin1.isalnum
}.

Section StringMethods.
Context {U : Unicode}.

(** [s.split()]: the maximal runs of characters that are not
    whitespace. *)
Fixpoint split_ws_from (cur : str) (s : str) : list str :=
  match s with
  | [] => match cur with [] => [] | _ => [rev cur] end
  | c :: s' =>
      if isspace c
      then match cur with
           | [] => split_ws_from [] s'
           | _ => rev cur :: split_ws_from [] s'
           end
      else split_ws_from (c :: cur) s'
  end.

Definition split (s : str) : list str := split_ws_from [] s.

Fixpoint lstrip (s : str) : str :=
  match s with
  | c :: s' => if isspace c then lstrip s' else s
  | [] => []
  end.

(** [s.strip()] *)
Definition strip (s : str) : str := rev (lstrip (rev (lstrip s))).

(** [[p.strip() for p in l if p.strip()]] *)
Definition strip_nonempty (l : list str) : list str :=
  filter (fun p => negb (eqb p [])) (List.map strip l).

End StringMethods.

(** ** Regular expressions

    A backtracking matcher for the fragment of Python's [re] that the
    tool uses. [^] and [$] have their [re.MULTILINE] meaning: every
    pattern of the tool that uses them is compiled with that flag. *)

Module Re.

Inductive regex :=
| Eps                         (* the empty pattern *)
| Chr (c : char)              (* a literal character *)
| Cls (p : char -> bool)      (* a character class *)
| Dot                         (* [.]: any character but a newline *)
| Bol                         (* [^] *)
| Eol                         (* [$] *)
| WordB                       (* [\b] *)
| Seq (r1 r2 : regex)
| Alt (r1 r2 : regex)         (* [r1|r2], the left one first *)
| Plus (r : regex)            (* [r+], greedy *)
| Grp (r : regex).            (* [(r)], the capturing group 1 *)

(** The subject around the current position, and what group 1 holds. *)
Record mstate := {
  before : str;               (* the characters passed, last one first *)
  after : str;                (* the characters ahead *)
  grp : option str
}.

Definition newline : char := 10%N.

Definition advance (st : mstate) (c : char) (rest : str) : mstate :=
  {| before := c :: before st; after := rest; grp := grp st |}.

(** One character ahead that satisfies [p]. *)
Definition step (p : char -> bool) (st : mstate)
    (k : mstate -> option mstate) : option mstate :=
  match after st with
  | c :: rest => if p c then k (advance st c rest) else None
  | [] => None
  end.

Definition orelse (a : option mstate) (b : unit -> option mstate) : option mstate :=
  match a with
  | Some x => Some x
  | None => b tt
  end.

Section Match.
Context {U : Unicode}.

(** [\w] *)
Definition isword (c : char) : bool := isalnum c || (c =? 95)%N.

Definition word_at (s : str) : bool :=
  match s with
  | c :: _ => isword c
  | [] => false
  end.

Definition at_bol (st : mstate) : bool :=
  match before st with
  | [] => true
  | c :: _ => (c =? newline)%N
  end.

Definition at_eol (st : mstate) : bool :=
  match after st with
  | [] => true
  | c :: _ => (c =? newline)%N
  end.

Definition at_boundary (st : mstate) : bool :=
  xorb (word_at (before st)) (word_at (after st)).

(** What was read between [st0] and the later state [st1]. *)
Definition consumed (st0 st1 : mstate) : str :=
  rev (firstn (length (before st1) - length (before st0)) (before st1)).

(** [rmatch r st k]: match [r] at [st], then continue with [k]; the
    first success in backtracking order is the answer. A round of [r+]
    that reads nothing ends the repetition. *)
Fixpoint rmatch (r : regex) (st : mstate)
    (k : mstate -> option mstate) {struct r} : option mstate :=
  match r with
  | Eps => k st
  | Chr c => step (N.eqb c) st k
  | Cls p => step p st k
  | Dot => step (fun c => negb (c =? newline)%N) st k
  | Bol => if at_bol st then k st else None
  | Eol => if at_eol st then k st else None
  | WordB => if at_boundary st then k st else None
  | Seq r1 r2 => rmatch r1 st (fun st' => rmatch r2 st' k)
  | Alt r1 r2 => orelse (rmatch r1 st k) (fun _ => rmatch r2 st k)
  | Plus r' =>
      (fix rounds (n : nat) (st0 : mstate) {struct n} : option mstate :=
         rmatch r' st0 (fun st1 =>
           match n with
           | S n' =>
               if length (after st1) <? length (after st0)
               then orelse (rounds n' st1) (fun _ => k st1)
               else k st1
           | O => k st1
           end)) (length (after st)) st
  | Grp r' =>
      rmatch r' st (fun st' =>
        k {| before := before st'; after := after st';
             grp := Some (consumed st st') |})
  end.

(** A match object: [m.start()], [m.end()], [m.group(0)] and group 1. *)
Record mobj := {
  m_start : nat;
  m_end : nat;
  m_text : str;
  m_group : option str
}.

Definition match_at (r : regex) (bef aft : str) : option mobj :=
  let st := {| before := bef; after := aft; grp := None |} in
  match rmatch r st Some with
  | Some st' =>
      Some {| m_start := length bef;
              m_end := length (before st');
              m_text := consumed st st';
              m_group := grp st' |}
  | None => None
  end.

(** [re.finditer]: the leftmost match, then on from its end. After an
    empty match the scan moves one character on (none of the tool's
    patterns has both an empty and a non-empty match at one
    position). *)
Fixpoint scan (r : regex) (skip : nat) (bef aft : str) {struct aft} : list mobj :=
  match skip with
  | S n =>
      match aft with
      | [] => []
      | c :: aft' => scan r n (c :: bef) aft'
      end
  | O =>
      match match_at r bef aft with
      | Some m =>
          m :: match aft with
               | [] => []
               | c :: aft' => scan r (m_end m - m_start m - 1) (c :: bef) aft'
               end
      | None =>
          match aft with
          | [] => []
          | c :: aft' => scan r 0 (c :: bef) aft'
          end
      end
  end.

Definition finditer (r : regex) (s : str) : list mobj := scan r 0 [] s.

(** [re.findall]: group 1 of every match when the pattern has a
    group, the whole match otherwise. *)
Definition findall (r : regex) (s : str) : list str :=
  List.map (fun m => match m_group m with Some g => g | None => m_text m end)
           (finditer r s).

(** [re.split]: the pieces of [s] between the matches. *)
Fixpoint pieces (s : str) (from : nat) (ms : list mobj) : list str :=
  match ms with
  | [] => [slice s from (length s)]
  | m :: ms' => slice s from (m_start m) :: pieces s (m_end m) ms'
  end.

Definition split (r : regex) (s : str) : list str := pieces s 0 (finditer r s).

(** [re.escape(s)] compiled: the characters of [s], literally. *)
Fixpoint escape (s : str) : regex :=
  match s with
  | [] => Eps
  | c :: s' => Seq (Chr c) (escape s')
  end.

(** [\s] *)
Definition space : regex := Cls isspace.

End Match.

(** [r{1,4}], greedy *)
Definition rep_1_4 (r : regex) : regex :=
  Seq r (Alt (Seq r (Alt (Seq r (Alt r Eps)) Eps)) Eps).

(** [[...]] of the listed characters *)
Definition one_of (cs : str) : regex :=
  Cls (fun c => existsb (N.eqb c) cs).

End Re.

(** ** Floating point

    A finite [float] is the rational it denotes. [fl] rounds a rational
    to the nearest number with a 53-bit significand, ties to even, as
    every IEEE 754 binary64 operation does with its exact result. The
    exponent range is not modelled: the tool only divides lengths of
    strings and lists (below [2^63] in CPython) and multiplies the
    quotients by 25 or 100, which stays far from overflow and from the
    subnormal numbers. *)

Module Float.

Definition float := Q.

(** The integer nearest to [n / d] for [d > 0], ties to the even one. *)
Definition round_half_even (n d : Z) : Z :=
  let q := (n / d)%Z in
  let r := (n mod d)%Z in
  if (2 * r <? d)%Z then q
  else if (d <? 2 * r)%Z then (q + 1)%Z
  else if Z.even q then q else (q + 1)%Z.

(** [a / b * 2^s] as a fraction of integers. *)
Definition scale (a b s : Z) : Z * Z :=
  ((a * 2 ^ Z.max 0 s)%Z, (b * 2 ^ Z.max 0 (- s))%Z).

(** [m * 2^(-s)] *)
Definition unscale (m s : Z) : Q :=
  Qred (Qmake (m * 2 ^ Z.max 0 (- s)) (Z.to_pos (2 ^ Z.max 0 s))).

(** The [e] with [2^e <= a / b < 2^(e+1)], for positive [a] and [b]. *)
Definition binade (a b : Z) : Z :=
  let d := (Z.log2 a - Z.log2 b)%Z in
  let '(n, m) := scale a b (- d) in
  if (m <=? n)%Z then d else (d - 1)%Z.

(** [a / b] to 53 significant bits, for positive [a] and [b]. *)
Definition round53 (a b : Z) : Q :=
  let s := (52 - binade a b)%Z in
  let '(n, d) := scale a b s in
  unscale (round_half_even n d) s.

Definition fl (q : Q) : float :=
  match Qnum q with
  | Z0 => 0
  | Zpos p => round53 (Zpos p) (Zpos (Qden q))
  | Zneg p => - round53 (Zpos p) (Zpos (Qden q))
  end.

(** Float multiplication. *)
Definition mul (x y : float) : float := fl (x * y).

(** [x > y], [x >= y] and [x <= y] on floats. *)
Definition gtb (x y : float) : bool := negb (Qle_bool x y).
Definition geb (x y : float) : bool := Qle_bool y x.
Definition leb (x y : float) : bool := Qle_bool x y.

(** [round(x, ndigits)] for [ndigits >= 0]: the decimal with [ndigits]
    digits after the point nearest to the exact value of [x], ties to
    even, read back as a float. *)
Definition round (x : float) (ndigits : nat) : float :=
  let p := (10 ^ Z.of_nat ndigits)%Z in
  fl (Qmake (round_half_even (Qnum x * p) (Zpos (Qden x))) (Z.to_pos p)).

(** The spacing of the floats just above 1, relative to them. *)
Definition eps : Q := 1 # (2 ^ 52).

(** [int(x)]: truncation toward zero. *)
Definition to_int (x : float) : Z := Z.quot (Qnum x) (Zpos (Qden x)).

End Float.

(** ** Exceptions *)

(** The exceptions that occur, with their messages. *)
Inductive exn :=
| ZeroDivisionError
| TypeError (msg : str)
| AttributeError (msg : str)
| JSONDecodeError (msg : str).

Inductive result (A : Type) :=
| Ok (a : A)
| Raise (e : exn).

Arguments Ok {A} a.
Arguments Raise {A} e.

Definition bind {A B : Type} (m : result A) (f : A -> result B) : result B :=
  match m with
  | Ok a => f a
  | Raise e => Raise e
  end.

Notation "x <- m ;; k" := (bind m (fun x => k))
  (at level 61, m at next level, right associativity).

(** [str(e)] *)
Definition exn_str (e : exn) : str :=
  match e with
  | ZeroDivisionError => u "division by zero"
  | TypeError msg => msg
  | AttributeError msg => msg
  | JSONDecodeError msg => msg
  end.

(** [a / b] on integers: the correctly rounded quotient. *)
Definition truediv (a b : Z) : result Float.float :=
  if (b =? 0)%Z then Raise ZeroDivisionError
  else Ok (Float.fl (Qmake a 1 / Qmake b 1)).

(** ** The dictionaries the tool builds *)

Inductive readability_score := Good | Moderate | Difficult | Invalid.

Definition readability_score_str (s : readability_score) : str :=
  match s with
  | Good => u "Good"
  | Moderate => u "Moderate"
  | Difficult => u "Difficult"
  | Invalid => u "Invalid"
  end.

Inductive usage := Missing | Underused | Overused | Optimal | Present.

Definition usage_str (a : usage) : str :=
  match a with
  | Missing => u "Missing"
  | Underused => u "Underused"
  | Overused => u "Overused (potential keyword stuffing)"
  | Optimal => u "Optimal"
  | Present => u "Present"
  end.

Definition usage_eqb (a b : usage) : bool :=
  match a, b with
  | Missing, Missing | Underused, Underused | Overused, Overused
  | Optimal, Optimal | Present, Present => true
  | _, _ => false
  end.

(** A Python number: [average_words_per_sentence] is the [int] 0 for
    content that cannot be analysed and a [float] otherwise. *)
Inductive number :=
| Int (z : Z)
| Flt (x : Float.float).

(** What [_analyze_readability] returns; the keys [sentences] and
    [paragraphs] are absent from the dictionary of the Invalid case. *)
Module Readability.
Record t := {
  score : readability_score;
  average_words_per_sentence : number;
  sentences : option Z;
  paragraphs : option Z;
  assessment : str;
  recommendations : list str
}.
End Readability.

(** What [_analyze_headings] returns. *)
Module Headings.
Record t := {
  h1_count : Z;
  h2_count : Z;
  h3_count : Z;
  h4_count : Z;
  assessment : str;
  recommendations : list str
}.
End Headings.

(** One value of the dictionary [results] of [_check_keyword_usage]. *)
Module KeywordEntry.
Record t := {
  count : Z;
  density : Float.float;
  in_headings : bool;
  in_intro : bool;
  in_url : bool;
  assessment : usage;
  recommendations : list str
}.
End KeywordEntry.

(** An insertion-ordered dictionary with string keys. *)
Definition dict (V : Type) := list (str * V).

(** [d[key] = v]: a key already present keeps its place. *)
Fixpoint dict_set {V : Type} (d : dict V) (key : str) (v : V) : dict V :=
  match d with
  | [] => [(key, v)]
  | (k0, v0) :: d' =>
      if eqb k0 key then (k0, v) :: d' else (k0, v0) :: dict_set d' key v
  end.

(** [d.keys()] *)
Definition keys {V : Type} (d : dict V) : list str := List.map fst d.

(** What [_check_keyword_usage] returns. *)
Module Keywords.
Record t := {
  keywords : dict KeywordEntry.t;
  overall_assessment : str;
  recommendations : list str
}.
End Keywords.

(** What [_analyze_content_completeness] returns. *)
Module Completeness.
Record t := {
  word_count : Z;
  has_intro : bool;
  has_conclusion : bool;
  has_bullet_points : bool;
  has_cta : bool;
  assessment : str;
  recommendations : list str
}.
End Completeness.

(** The local variables of [_run] once the score is computed. *)
Module Analysis.
Record t := {
  readability : Readability.t;
  heading_analysis : Headings.t;
  keyword_analysis : Keywords.t;
  completeness : Completeness.t;
  score_components : list Z;
  total_score : Z;
  all_recommendations : list str
}.
End Analysis.

(** A JSON object whose members, when present, have the types of
    [ContentAnalysisInput]; [min_word_count] is an [Optional[int]] and
    may be [null]. *)
Record input_dict := {
  content : option str;
  target_keywords : option (list str);
  min_word_count : option (option Z)
}.

(** What [json.loads] returns: such an object, or a value that is not
    an object at all, of which only the name of its Python type
    matters ([list], [str], [int], [float], [bool] or [NoneType]).
    Objects with members of other types are outside the embedding. *)
Inductive json :=
| JObject (d : input_dict)
| JOther (type_name : str).

(** [tool_input.get]: only a [dict] has the method. *)
Definition as_dict (v : json) : result input_dict :=
  match v with
  | JObject d => Ok d
  | JOther type_name =>
      Raise (AttributeError
        (u "'" ++ type_name ++ u "' object has no attribute 'get'"))
  end.

(** [d.get(key, default)] *)
Definition get {A : Type} (member : option A) (default : A) : A :=
  match member with
  | Some v => v
  | None => default
  end.

(** What the tool takes from Python's library without the embedding
    fixing it: [json.loads] (which raises [JSONDecodeError] on input
    that is not JSON), the [repr] of a float inside an f-string, and
    the order in which [list(set(l))] enumerates the distinct members
    of [l]. *)
Class Library := {
  json_loads : str -> result json;
  float_repr : Float.float -> str;
  list_of_set : list str -> list str
}.

(** A monadic [for] loop over a list. *)
Fixpoint for_each {A B : Type} (l : list B) (body : A -> B -> result A)
    (a : A) : result A :=
  match l with
  | [] => Ok a
  | x :: l' => a' <- body a x ;; for_each l' body a'
  end.

Definition newline : str := [10%N].
Definition bullet : str := [8226%N].

(** [sum(1 for k, v in results.items() if v["assessment"] == a)] *)
Definition count_assessment (a : usage) (results : dict KeywordEntry.t) : Z :=
  Z.of_nat (length (filter (fun kv => usage_eqb (KeywordEntry.assessment (snd kv)) a)
                           results)).

(** [len(l)] *)
Definition len {A : Type} (l : list A) : Z := Z.of_nat (length l).

(** ** The tool *)

Section Tool.
Context {U : Unicode}.

Definition cat (rs : list Re.regex) : Re.regex := fold_right Re.Seq Re.Eps rs.

Definition hash : char := 35%N.

(** [r'\b' + re.escape(keyword.lower()) + r'\b'] *)
Definition keyword_pattern (keyword : str) : Re.regex :=
  cat [Re.WordB; Re.escape (lower keyword); Re.WordB].

(** The local variable [keyword_count] of [_calculate_keyword_density]:
    the number of whole-word matches of [keyword] in [content],
    whatever the case of the letters. *)
Definition whole_word_matches (content keyword : str) : Z :=
  len (Re.findall (keyword_pattern keyword) (lower content)).

Definition _calculate_keyword_density (content keyword : str) : result Float.float :=
  let total_words := len (split content) in
  if (total_words =? 0)%Z then Ok 0
  else
    (* Count exact keyword occurrences (case insensitive) *)
    let keyword_count := whole_word_matches content keyword in
    q <- truediv keyword_count total_words ;;
    Ok (Float.mul q 100).

(** The local variable [sentences] of [_analyze_readability]:
    [re.split(r'[.!?]+', content)], stripped, without the empty ones. *)
Definition sentences_of (content : str) : list str :=
  let sentences := Re.split (Re.Plus (Re.one_of (u ".!?"))) content in
  strip_nonempty sentences.

(** The local variable [paragraphs] of [_analyze_readability] and of
    [_analyze_content_completeness]: [content.split('\n\n')],
    stripped, without the empty ones. *)
Definition paragraphs_of (content : str) : list str :=
  let paragraphs := split_sep content (newline ++ newline) in
  strip_nonempty paragraphs.

Definition _analyze_readability (content : str) : result Readability.t :=
  (* Split content into sentences and words *)
  let sentences := sentences_of content in
  let words := split content in
  let total_words := len words in
  let total_sentences := len sentences in
  if (total_sentences =? 0)%Z || (total_words =? 0)%Z then
    Ok {| Readability.score := Invalid;
          Readability.average_words_per_sentence := Int 0;
          Readability.sentences := None;
          Readability.paragraphs := None;
          Readability.assessment := u "Unable to analyze empty content.";
          Readability.recommendations := [u "Add meaningful content to analyze."] |}
  else
    (* Calculate average words per sentence *)
    avg_words_per_sentence <- truediv total_words total_sentences ;;
    let '(readability, assessment, recommendations) :=
      if Float.gtb avg_words_per_sentence 25 then
        (Difficult,
         u "Content may be difficult to read due to long sentences.",
         [u "Consider breaking longer sentences into shorter ones.";
          u "Aim for an average of 15-20 words per sentence."])
      else if Float.gtb avg_words_per_sentence 20 then
        (Moderate,
         u "Content has reasonable readability but could be improved.",
         [u "Some sentences could be shortened for better readability."])
      else
        (Good,
         u "Content has good readability with appropriate sentence length.",
         [u "Maintain this level of clarity throughout all content."]) in
    (* Count paragraphs *)
    let paragraphs := paragraphs_of content in
    let total_paragraphs := len paragraphs in
    (* Check paragraph length *)
    let long_paragraphs :=
      len (filter (fun p => (100 <? len (split p))%Z) paragraphs) in
    recommendations <-
      (if (0 <? long_paragraphs)%Z && (0 <? total_paragraphs)%Z then
         ratio <- truediv long_paragraphs total_paragraphs ;;
         Ok (if Float.gtb ratio (Float.fl (3 # 10))
             then recommendations ++
                  [u "Consider breaking long paragraphs into smaller chunks."]
             else recommendations)
       else Ok recommendations) ;;
    Ok {| Readability.score := readability;
          Readability.average_words_per_sentence :=
            Flt (Float.round avg_words_per_sentence 1);
          Readability.sentences := Some total_sentences;
          Readability.paragraphs := Some total_paragraphs;
          Readability.assessment := assessment;
          Readability.recommendations := recommendations |}.

(** [r'^#\s+(.+)$'] and its siblings with two, three and four [#]. *)
Definition heading_tail : list Re.regex :=
  [Re.Plus Re.space; Re.Grp (Re.Plus Re.Dot); Re.Eol].

Definition h1_pattern : Re.regex := cat (Re.Bol :: Re.Chr hash :: heading_tail).
Definition h2_pattern : Re.regex :=
  cat (Re.Bol :: Re.Chr hash :: Re.Chr hash :: heading_tail).
Definition h3_pattern : Re.regex :=
  cat (Re.Bol :: Re.Chr hash :: Re.Chr hash :: Re.Chr hash :: heading_tail).
Definition h4_pattern : Re.regex :=
  cat (Re.Bol :: Re.Chr hash :: Re.Chr hash :: Re.Chr hash :: Re.Chr hash ::
       heading_tail).

(** An [if] statement whose body appends to [recommendations] and to
    [assessment]. *)
Definition when (c : bool) (rec : str) (note : str)
    (st : list str * str) : list str * str :=
  if c then (fst st ++ [rec], snd st ++ note) else st.

Definition hierarchy_h3_message : str :=
  u "Fix heading hierarchy: H3 headings should be used after H2 headings, not directly after H1.".

Definition _analyze_headings (content : str) : Headings.t :=
  (* Find headings using regex *)
  let h1_headings := Re.findall h1_pattern content in
  let h2_headings := Re.findall h2_pattern content in
  let h3_headings := Re.findall h3_pattern content in
  let h4_headings := Re.findall h4_pattern content in
  (* Count of each heading type *)
  let h1_count := len h1_headings in
  let h2_count := len h2_headings in
  let h3_count := len h3_headings in
  let h4_count := len h4_headings in
  let st := ([], u "Heading structure analysis:") in
  (* Analyze heading structure *)
  let st :=
    if (h1_count =? 0)%Z then
      when true (u "Add an H1 heading (main title) to your content.")
           (u " Missing H1 heading.") st
    else
      when (1 <? h1_count)%Z
           (u "Use only one H1 heading per page for proper SEO.")
           (u " Multiple H1 headings detected.") st in
  let st :=
    when ((h2_count =? 0)%Z && (300 <? len content)%Z)
         (u "Break content into sections using H2 headings.")
         (u " No section headings (H2) found.") st in
  let st :=
    when ((0 <? h2_count)%Z && (h3_count =? 0)%Z && (1000 <? len content)%Z)
         (u "Consider using H3 headings for subsections within major sections.")
         [] st in
  let st :=
    when (7 <? h2_count)%Z
         (u "Consider consolidating some sections - too many H2 headings can dilute focus.")
         [] st in
  (* Check heading hierarchy *)
  let st :=
    when ((0 <? h3_count)%Z && (h2_count =? 0)%Z)
         hierarchy_h3_message
         (u " Improper heading hierarchy.") st in
  let st :=
    when ((0 <? h4_count)%Z && (h3_count =? 0)%Z)
         (u "Fix heading hierarchy: H4 headings should be used after H3 headings.")
         (u " Improper heading hierarchy.") st in
  let st :=
    match fst st with
    | [] => ([u "Maintain consistent heading hierarchy for future content."],
             u "Heading structure looks good.")
    | _ => st
    end in
  {| Headings.h1_count := h1_count;
     Headings.h2_count := h2_count;
     Headings.h3_count := h3_count;
     Headings.h4_count := h4_count;
     Headings.assessment := snd st;
     Headings.recommendations := fst st |}.

(** [r'^#{1,4}\s+(.+)$'] *)
Definition heading_pattern : Re.regex :=
  cat (Re.Bol :: Re.rep_1_4 (Re.Chr hash) :: heading_tail).

(** The branch of [_check_keyword_usage] that assesses one keyword. *)
Definition assess (keyword : str) (count : Z) (density : Float.float)
    : usage * list str :=
  if (count =? 0)%Z then
    (Missing, [u "Add the keyword '" ++ keyword ++ u "' to your content."])
  else if (count =? 1)%Z then
    (Underused,
     [u "Use the keyword '" ++ keyword ++
      u "' more frequently throughout the content."])
  else if Float.gtb density 3 then
    (Overused,
     [u "Reduce usage of '" ++ keyword ++ u "' to avoid keyword stuffing."])
  else if Float.geb density (1 # 2) && Float.leb density (5 # 2) then
    (Optimal, [])
  else
    (Present, []).

(** The dictionary that the body of the loop over [target_keywords]
    stores under [keyword]. *)
Definition keyword_entry (content content_lower headings_text intro : str)
    (keyword : str) : result KeywordEntry.t :=
  let keyword_lower := lower keyword in
  (* Check overall presence *)
  let count := Z.of_nat (count content_lower keyword_lower) in
  density <- _calculate_keyword_density content keyword ;;
  (* Check presence in headings *)
  let in_headings := contains keyword_lower headings_text in
  (* Check presence in intro *)
  let in_intro := contains keyword_lower intro in
  (* Check presence in URL (simulated) *)
  let in_url := false in
  (* Assess keyword usage *)
  let '(assessment, keyword_recommendations) := assess keyword count density in
  (* Specific recommendations *)
  let keyword_recommendations :=
    if negb in_headings && (0 <? count)%Z
    then keyword_recommendations ++
         [u "Include '" ++ keyword ++ u "' in at least one heading."]
    else keyword_recommendations in
  let keyword_recommendations :=
    if negb in_intro && (0 <? count)%Z
    then keyword_recommendations ++
         [u "Include '" ++ keyword ++ u "' in the introduction section."]
    else keyword_recommendations in
  Ok {| KeywordEntry.count := count;
        KeywordEntry.density := Float.round density 2;
        KeywordEntry.in_headings := in_headings;
        KeywordEntry.in_intro := in_intro;
        KeywordEntry.in_url := in_url;
        KeywordEntry.assessment := assessment;
        KeywordEntry.recommendations := keyword_recommendations |}.

(** The body of the loop over [target_keywords]; the state is
    [results] and [all_recommendations]. *)
Definition keyword_step (content content_lower headings_text intro : str)
    (st : dict KeywordEntry.t * list str) (keyword : str)
    : result (dict KeywordEntry.t * list str) :=
  let '(results, all_recommendations) := st in
  entry <- keyword_entry content content_lower headings_text intro keyword ;;
  (* Add to results *)
  let results := dict_set results keyword entry in
  (* Add keyword-specific recommendations to overall list *)
  Ok (results, all_recommendations ++ KeywordEntry.recommendations entry).

(** The local variable [headings_text] of [_check_keyword_usage]. *)
Definition headings_text_of (content : str) : str :=
  (* Find headings *)
  let headings := Re.findall heading_pattern content in
  lower (join (u " ") headings).

(** The local variable [intro] of [_check_keyword_usage]. *)
Definition intro_of (content : str) : str :=
  (* First 100 words (approximate introduction) *)
  let words := split content in
  lower (join (u " ") (firstn (min 100 (length words)) words)).

Definition _check_keyword_usage (content : str) (target_keywords : list str)
    : result Keywords.t :=
  let content_lower := lower content in
  let headings_text := headings_text_of content in
  let intro := intro_of content in
  let results : dict KeywordEntry.t := [] in
  let all_recommendations : list str := [] in
  st <- for_each target_keywords
          (keyword_step content content_lower headings_text intro)
          (results, all_recommendations) ;;
  let '(results, all_recommendations) := st in
  (* Overall assessment *)
  let optimal_count := count_assessment Optimal results in
  let missing_count := count_assessment Missing results in
  let overall_assessment :=
    if (missing_count =? len target_keywords)%Z then
      u "No target keywords found in content."
    else if (optimal_count =? len target_keywords)%Z then
      u "All keywords are used optimally."
    else
      of_Z optimal_count ++ u " of " ++ of_Z (len target_keywords) ++
      u " keywords used optimally." in
  Ok {| Keywords.keywords := results;
        Keywords.overall_assessment := overall_assessment;
        Keywords.recommendations := all_recommendations |}.

(** [word_count < min_word_count], where [min_word_count] may be
    [None]. *)
Definition int_lt (a : Z) (b : option Z) : result bool :=
  match b with
  | Some b => Ok (a <? b)%Z
  | None =>
      Raise (TypeError
        (u "'<' not supported between instances of 'int' and 'NoneType'"))
  end.

(** [a >= b] likewise. *)
Definition int_ge (a : Z) (b : option Z) : result bool :=
  match b with
  | Some b => Ok (b <=? a)%Z
  | None =>
      Raise (TypeError
        (u "'>=' not supported between instances of 'int' and 'NoneType'"))
  end.

(** [f"{min_word_count}"] *)
Definition format_optional_int (b : option Z) : str :=
  match b with
  | Some b => of_Z b
  | None => u "None"
  end.

Definition cta_phrases : list str :=
  [u "learn more"; u "sign up"; u "get started"; u "contact us";
   u "call now"; u "subscribe"].

(** [recommendations.append(r)] under the condition [c]. *)
Definition append_if (c : bool) (r : str) (recommendations : list str) : list str :=
  if c then recommendations ++ [r] else recommendations.

Definition _analyze_content_completeness (content : str)
    (min_word_count : option Z) : result Completeness.t :=
  let word_count := len (split content) in
  (* Check for key content components *)
  let has_bullet_points :=
    contains bullet content || contains (u "*") content ||
    contains (u "-") content in
  let paragraphs := paragraphs_of content in
  let has_intro :=
    match paragraphs with
    | [] => false
    | p :: _ => (30 <=? len (split p))%Z
    end in
  let has_conclusion :=
    match paragraphs with
    | [] => false
    | _ => (30 <=? len (split (last paragraphs [])))%Z
    end in
  (* Assess content completeness *)
  let recommendations := [] in
  too_short <- int_lt word_count min_word_count ;;
  let recommendations :=
    append_if too_short
      (u "Increase content length to at least " ++
       format_optional_int min_word_count ++ u " words (currently " ++
       of_Z word_count ++ u ").") recommendations in
  let recommendations :=
    append_if (negb has_intro)
      (u "Add a proper introduction section (at least 30 words).")
      recommendations in
  let recommendations :=
    append_if (negb has_conclusion)
      (u "Add a proper conclusion section (at least 30 words).")
      recommendations in
  let recommendations :=
    append_if (negb has_bullet_points && (500 <? word_count)%Z)
      (u "Add bullet points or lists to break up long text sections.")
      recommendations in
  (* Check for call to action *)
  let has_cta := existsb (fun phrase => contains phrase (lower content)) cta_phrases in
  let recommendations :=
    append_if (negb has_cta)
      (u "Add a clear call-to-action (CTA) to guide readers on next steps.")
      recommendations in
  let assessment := u "Content structure assessment:" in
  let assessment :=
    match recommendations with
    | [] => assessment ++ u " Content is well-structured and complete."
    | _ => assessment ++ u " Content needs improvement (" ++
           of_Z (len recommendations) ++ u " issues found)."
    end in
  Ok {| Completeness.word_count := word_count;
        Completeness.has_intro := has_intro;
        Completeness.has_conclusion := has_conclusion;
        Completeness.has_bullet_points := has_bullet_points;
        Completeness.has_cta := has_cta;
        Completeness.assessment := assessment;
        Completeness.recommendations := recommendations |}.

(** [sum(score_components)] *)
Definition sum (l : list Z) : Z := fold_left Z.add l 0%Z.

(** [score += n] under the condition [c]. *)
Definition add_if (c : bool) (n : Z) (score : Z) : Z :=
  if c then (score + n)%Z else score.

(** What such a statement contributes to the score. *)
Definition points (c : bool) (n : Z) : Z := if c then n else 0%Z.

(** The part of [_run] from "Perform the analysis" to "Compile all
    recommendations". *)
Definition analyse (content : str) (target_keywords : list str)
    (min_word_count : option Z) : result Analysis.t :=
  (* Perform the analysis *)
  readability <- _analyze_readability content ;;
  let heading_analysis := _analyze_headings content in
  keyword_analysis <- _check_keyword_usage content target_keywords ;;
  completeness <- _analyze_content_completeness content min_word_count ;;
  (* Calculate overall SEO score (simplified) *)
  let score_components := [] in
  (* Readability score (0-25) *)
  let score_components :=
    match Readability.score readability with
    | Good => score_components ++ [25%Z]
    | Moderate => score_components ++ [15%Z]
    | _ => score_components ++ [5%Z]
    end in
  (* Heading structure score (0-25) *)
  let heading_score := 0%Z in
  let heading_score :=
    add_if (Headings.h1_count heading_analysis =? 1)%Z 10 heading_score in
  let heading_score :=
    add_if (0 <? Headings.h2_count heading_analysis)%Z 10 heading_score in
  let heading_score :=
    add_if (0 <? Headings.h3_count heading_analysis)%Z 5 heading_score in
  let score_components := score_components ++ [heading_score] in
  (* Keyword usage score (0-25) *)
  let optimal_count :=
    count_assessment Optimal (Keywords.keywords keyword_analysis) in
  ratio <- truediv optimal_count (len target_keywords) ;;
  let keyword_score := Float.to_int (Float.mul ratio 25) in
  let score_components := score_components ++ [keyword_score] in
  (* Content completeness score (0-25) *)
  let completeness_score := 0%Z in
  long_enough <- int_ge (Completeness.word_count completeness) min_word_count ;;
  let completeness_score := add_if long_enough 10 completeness_score in
  let completeness_score :=
    add_if (Completeness.has_intro completeness) 5 completeness_score in
  let completeness_score :=
    add_if (Completeness.has_conclusion completeness) 5 completeness_score in
  let completeness_score :=
    add_if (Completeness.has_bullet_points completeness) 3 completeness_score in
  let completeness_score :=
    add_if (Completeness.has_cta completeness) 2 completeness_score in
  let score_components := score_components ++ [completeness_score] in
  (* Calculate total score *)
  let total_score := sum score_components in
  (* Compile all recommendations *)
  let all_recommendations :=
    Readability.recommendations readability ++
    Headings.recommendations heading_analysis ++
    Keywords.recommendations keyword_analysis ++
    Completeness.recommendations completeness in
  Ok {| Analysis.readability := readability;
        Analysis.heading_analysis := heading_analysis;
        Analysis.keyword_analysis := keyword_analysis;
        Analysis.completeness := completeness;
        Analysis.score_components := score_components;
        Analysis.total_score := total_score;
        Analysis.all_recommendations := all_recommendations |}.

Context {L : Library}.

Definition yes_no (b : bool) : str := if b then u "Yes" else u "No".

(** [f"{x}"] for a number. *)
Definition format_number (x : number) : str :=
  match x with
  | Int z => of_Z z
  | Flt x => float_repr x
  end.

(** The row of the keyword table for one item of [results]. *)
Definition keyword_row (item : str * KeywordEntry.t) : str :=
  let '(keyword, analysis) := item in
  u "| " ++ keyword ++ u " | " ++ of_Z (KeywordEntry.count analysis) ++
  u " | " ++ float_repr (KeywordEntry.density analysis) ++ u "% | " ++
  yes_no (KeywordEntry.in_headings analysis) ++ u " | " ++
  yes_no (KeywordEntry.in_intro analysis) ++ u " | " ++
  usage_str (KeywordEntry.assessment analysis) ++ u " |" ++ newline.

(** The line of the content overview that reports the word count. *)
Definition word_count_line (completeness : Completeness.t)
    (min_word_count : option Z) : result str :=
  let result :=
    u "- **Word Count:** " ++ of_Z (Completeness.word_count completeness) ++
    u " words" in
  too_short <- int_lt (Completeness.word_count completeness) min_word_count ;;
  Ok (if too_short
      then result ++ u " (Recommended: " ++ format_optional_int min_word_count ++
           u "+ words)" ++ newline
      else result ++ newline).

(** The numbered lines of [enumerate(l, i)]. *)
Fixpoint numbered (i : Z) (l : list str) : str :=
  match l with
  | [] => []
  | recommendation :: l' =>
      of_Z i ++ u ". " ++ recommendation ++ newline ++ numbered (i + 1) l'
  end.

(** The part of [_run] that formats the result as markdown. *)
Definition format_result (a : Analysis.t) (target_keywords : list str)
    (min_word_count : option Z) : result str :=
  let total_score := Analysis.total_score a in
  let completeness := Analysis.completeness a in
  let heading_analysis := Analysis.heading_analysis a in
  let readability := Analysis.readability a in
  let keyword_analysis := Analysis.keyword_analysis a in
  let result := u "# Content Analysis Results" ++ newline ++ newline in
  let result := result ++ u "## Overall SEO Score: " ++ of_Z total_score ++
                u "/100" ++ newline ++ newline in
  let result :=
    if (90 <=? total_score)%Z then
      result ++ u "**Excellent!** Your content is very well optimized for SEO." ++
      newline ++ newline
    else if (70 <=? total_score)%Z then
      result ++ u "**Good.** Your content is generally well optimized with some room for improvement." ++
      newline ++ newline
    else if (50 <=? total_score)%Z then
      result ++ u "**Moderate.** Your content needs several improvements to be fully optimized." ++
      newline ++ newline
    else
      result ++ u "**Needs Work.** Your content requires significant optimization to perform well in search." ++
      newline ++ newline in
  let result := result ++ u "## Content Overview" ++ newline ++ newline in
  line <- word_count_line completeness min_word_count ;;
  let result := result ++ line in
  let result :=
    result ++ u "- **Headings:** " ++ of_Z (Headings.h1_count heading_analysis) ++
    u " H1, " ++ of_Z (Headings.h2_count heading_analysis) ++
    u " H2, " ++ of_Z (Headings.h3_count heading_analysis) ++ u " H3" ++ newline in
  let result :=
    result ++ u "- **Readability:** " ++
    readability_score_str (Readability.score readability) ++ u " (" ++
    format_number (Readability.average_words_per_sentence readability) ++
    u " words per sentence)" ++ newline in
  let result :=
    result ++ u "- **Target Keywords:** " ++ of_Z (len target_keywords) ++
    newline ++ newline in
  let result := result ++ u "## Keyword Analysis" ++ newline ++ newline in
  let result :=
    result ++
    u "| Keyword | Occurrences | Density | In Headings | In Intro | Assessment |" ++
    newline in
  let result :=
    result ++
    u "|---------|------------|---------|-------------|----------|------------|" ++
    newline in
  let result :=
    result ++ concat (List.map keyword_row (Keywords.keywords keyword_analysis)) in
  let result :=
    result ++ newline ++ Keywords.overall_assessment keyword_analysis ++
    newline ++ newline in
  let result := result ++ u "## Top Recommendations" ++ newline ++ newline in
  (* Prioritize and deduplicate recommendations *)
  let unique_recommendations := list_of_set (Analysis.all_recommendations a) in
  let result := result ++ numbered 1 (firstn 10 unique_recommendations) in
  let result :=
    if (10 <? len unique_recommendations)%Z then
      result ++ newline ++ u "*Plus " ++
      of_Z (len unique_recommendations - 10) ++ u " more recommendations...*" ++
      newline
    else result in
  Ok result.

(** The body of the [try] statement of [_run]. *)
Definition _run_try (tool_input : str) : result str :=
  (* Parse the tool input *)
  input_dict <- json_loads tool_input ;;
  input_dict <- as_dict input_dict ;;
  let content := get (content input_dict) [] in
  let target_keywords := get (target_keywords input_dict) [] in
  let min_word_count := get (min_word_count input_dict) (Some 300%Z) in
  match content with
  | [] => Ok (u "Error: No content provided for analysis.")
  | _ =>
      match target_keywords with
      | [] => Ok (u "Error: No target keywords provided for analysis.")
      | _ =>
          a <- analyse content target_keywords min_word_count ;;
          format_result a target_keywords min_word_count
      end
  end.

(** [_run]: the [try] statement with its two handlers. *)
Definition _run (tool_input : str) : str :=
  match _run_try tool_input with
  | Ok result => result
  | Raise (JSONDecodeError _) => u "Error: Invalid JSON input."
  | Raise e => u "Error executing Content Analysis tool: " ++ exn_str e
  end.

End Tool.

(** ** Whole words, in the words of the spec *)

(** The spec speaks of the whole-word matches of a keyword without
    saying how they are found. The definitions of this section follow
    those words and not the source: the occurrences of the keyword,
    taken from left to right without overlap, that have no word
    character (a letter, a digit or the underscore) directly before or
    directly after them. They are what [whole_word_matches], the count
    of the source, is compared with. *)

Section WholeWords.
Context {U : Unicode}.

(** No word character directly before the position. *)
Definition free_before (prev : option char) : bool :=
  match prev with
  | Some c => negb (Re.isword c)
  | None => true
  end.

(** No word character directly after it. *)
Definition free_after (rest : str) : bool :=
  match rest with
  | c :: _ => negb (Re.isword c)
  | [] => true
  end.

(** [keyword] stands at the head of [s] as a whole word; [prev] is
    the character before [s]. *)
Definition whole_word_here (keyword : str) (prev : option char) (s : str) : bool :=
  startswith keyword s && free_before prev &&
  free_after (skipn (length keyword) s).

(** The whole words from left to right: [skip] counts the characters
    of a whole word already counted that are still to be passed
    over. *)
Fixpoint whole_words_from (keyword : str) (skip : nat) (prev : option char)
    (s : str) {struct s} : nat :=
  match s with
  | [] => 0
  | c :: s' =>
      match skip with
      | S n => whole_words_from keyword n (Some c) s'
      | O =>
          if whole_word_here keyword prev s
          then S (whole_words_from keyword (length keyword - 1) (Some c) s')
          else whole_words_from keyword 0 (Some c) s'
      end
  end.

(** The case-insensitive whole-word matches of [keyword] in
    [content], as the spec words them. *)
Definition spec_whole_word_matches (content keyword : str) : Z :=
  Z.of_nat (whole_words_from (lower keyword) 0 None (lower content)).

(** A keyword that begins and ends with a word character. *)
Definition word_ends (keyword : str) : bool :=
  match keyword with
  | [] => false
  | c :: _ => Re.isword c && Re.isword (last keyword c)
  end.

End WholeWords.

(** ** Sample requests *)

Definition sample_content : str :=
  u "# SEO basics" ++ newline ++ newline ++
  u "Good SEO starts with content. Learn more about SEO - today!".

(** A hundred words, two of them the keyword. *)
Definition hundred_words : str :=
  u "seo and seo" ++ concat (repeat (u " word") 97).

(** A hundred words, two of them the keyword "c++". *)
Definition plus_words : str :=
  u "c++ and c++" ++ concat (repeat (u " word") 97).

(** 233 words, seven of them the keyword: a density of 3.004...,
    reported as 3.0. *)
Definition seven_of_233 : str :=
  u "seo seo seo seo seo seo seo" ++ concat (repeat (u " word") 226).

(** 401 words, two of them the keyword: a density of 0.498...,
    reported as 0.5. *)
Definition two_of_401 : str :=
  u "seo seo" ++ concat (repeat (u " word") 399).

(** 519 words, thirteen of them the keyword: a density of 2.504...,
    reported as 2.5. *)
Definition thirteen_of_519 : str :=
  concat (repeat (u "seo ") 13) ++ u "word" ++ concat (repeat (u " word") 505).

Definition quote : str := [34%N].

(** The JSON text of an object with the one member [content], the
    string x. *)
Definition content_only : str :=
  u "{" ++ quote ++ u "content" ++ quote ++ u ": " ++ quote ++ u "x" ++ quote ++
  u "}".

(** A [json.loads] that reads the empty object, [content_only] and the
    empty array and rejects anything else, as it does the empty
    string; nothing is said about floats or sets. *)
Definition sample_library : Library := {|
  json_loads := fun s =>
    if eqb s (u "{}") then
      Ok (JObject {| content := None; target_keywords := None;
                     min_word_count := None |})
    else if eqb s content_only then
      Ok (JObject {| content := Some (u "x"); target_keywords := None;
                     min_word_count := None |})
    else if eqb s (u "[]") then Ok (JOther (u "list"))
    else Raise (JSONDecodeError (u "Expecting value: line 1 column 1 (char 0)"));
  float_repr := fun _ => [];
  list_of_set := fun l => l
|}.

(** * Properties *)

(** ** Rounding *)

Section FloatFacts.
Import Float.
Open Scope Z_scope.

Lemma round_half_even_bounds (n d : Z) :
  0 < d -> n / d <= round_half_even n d <= n / d + 1.
Proof.
  intros Hd. unfold round_half_even.
  destruct (2 * (n mod d) <? d); [lia|].
  destruct (d <? 2 * (n mod d)); [lia|].
  destruct (Z.even (n / d)); lia.
Qed.

Lemma round_half_even_mul (n d : Z) :
  0 < d -> 0 <= n -> 0 <= round_half_even n d /\ round_half_even n d * d <= n + d.
Proof.
  intros Hd Hn.
  pose proof (round_half_even_bounds n Hd) as [Hlo Hhi].
  pose proof (Z.div_pos n d Hn Hd).
  pose proof (Z.mul_div_le n d Hd).
  split; [lia|]. nia.
Qed.

Lemma pow2_pos (k : Z) : 0 < 2 ^ Z.max 0 k.
Proof. apply Z.pow_pos_nonneg; lia. Qed.

Lemma pow2_split (x y : Z) : 0 <= x -> 0 <= y -> 2 ^ (x + y) = 2 ^ x * 2 ^ y.
Proof. intros. apply Z.pow_add_r; assumption. Qed.

(** [2^e <= a / b] for [e = binade a b]. *)
Lemma binade_le (a b : Z) :
  0 < a -> 0 < b ->
  b * 2 ^ Z.max 0 (binade a b) <= a * 2 ^ Z.max 0 (- binade a b).
Proof.
  intros Ha Hb. unfold binade, scale.
  set (d := Z.log2 a - Z.log2 b).
  rewrite Z.opp_involutive.
  destruct (Z.leb_spec (b * 2 ^ Z.max 0 d) (a * 2 ^ Z.max 0 (- d))) as [H|H]; [exact H|].
  destruct (Z.log2_spec a Ha) as [Hla _].
  destruct (Z.log2_spec b Hb) as [_ Hlb].
  pose proof (Z.log2_nonneg a) as Hna. pose proof (Z.log2_nonneg b) as Hnb.
  destruct (Z_le_gt_dec 1 d) as [Hd|Hd].
  - replace (Z.max 0 (d - 1)) with (d - 1) by lia.
    replace (Z.max 0 (- (d - 1))) with 0 by lia.
    rewrite Z.pow_0_r, Z.mul_1_r.
    assert (E : 2 ^ Z.log2 a = 2 ^ Z.succ (Z.log2 b) * 2 ^ (d - 1)).
    { rewrite <- pow2_split by lia. f_equal. unfold d. lia. }
    assert (0 < 2 ^ (d - 1)) by (apply Z.pow_pos_nonneg; lia).
    nia.
  - replace (Z.max 0 (d - 1)) with 0 by lia.
    replace (Z.max 0 (- (d - 1))) with (1 - d) by lia.
    rewrite Z.pow_0_r, Z.mul_1_r.
    assert (E : 2 ^ Z.succ (Z.log2 b) = 2 ^ Z.log2 a * 2 ^ (1 - d)).
    { rewrite <- pow2_split by lia. f_equal. unfold d. lia. }
    assert (0 < 2 ^ (1 - d)) by (apply Z.pow_pos_nonneg; lia).
    nia.
Qed.

(** The scaled quotient has at least 53 bits. *)
Lemma scale_ge (a b : Z) :
  0 < a -> 0 < b ->
  let s := 52 - binade a b in
  snd (scale a b s) * 2 ^ 52 <= fst (scale a b s).
Proof.
  intros Ha Hb s. pose proof (binade_le Ha Hb) as H.
  unfold scale; simpl fst; simpl snd.
  set (e := binade a b) in *.
  destruct (Z_le_gt_dec 0 s) as [Hs|Hs].
  - replace (Z.max 0 (- s)) with 0 by lia.
    replace (Z.max 0 s) with s by lia.
    rewrite Z.pow_0_r, Z.mul_1_r.
    destruct (Z_le_gt_dec 0 e) as [He|He].
    + replace (Z.max 0 e) with e in H by lia.
      replace (Z.max 0 (- e)) with 0 in H by lia.
      rewrite Z.pow_0_r, Z.mul_1_r in H.
      assert (E : 2 ^ 52 = 2 ^ e * 2 ^ s).
      { rewrite <- pow2_split by lia. f_equal. unfold s. lia. }
      assert (0 < 2 ^ s) by (apply Z.pow_pos_nonneg; lia).
      rewrite E. nia.
    + replace (Z.max 0 e) with 0 in H by lia.
      replace (Z.max 0 (- e)) with (- e) in H by lia.
      rewrite Z.pow_0_r, Z.mul_1_r in H.
      assert (E : 2 ^ s = 2 ^ (- e) * 2 ^ 52).
      { rewrite <- pow2_split by lia. f_equal. unfold s. lia. }
      rewrite E. nia.
  - replace (Z.max 0 (- s)) with (- s) by lia.
    replace (Z.max 0 s) with 0 by lia.
    rewrite Z.pow_0_r, Z.mul_1_r.
    replace (Z.max 0 e) with e in H by lia.
    replace (Z.max 0 (- e)) with 0 in H by lia.
    rewrite Z.pow_0_r, Z.mul_1_r in H.
    assert (E : 2 ^ e = 2 ^ (- s) * 2 ^ 52).
    { rewrite <- pow2_split by lia. f_equal. unfold s. lia. }
    rewrite E in H. lia.
Qed.

Open Scope Q_scope.

Lemma round53_bounds (a b : Z) :
  (0 < a)%Z -> (0 < b)%Z ->
  0 <= round53 a b /\ round53 a b <= (a # Z.to_pos b) * (1 + eps).
Proof.
  intros Ha Hb. unfold round53.
  pose proof (scale_ge Ha Hb) as Hge. cbv zeta in Hge.
  set (s := (52 - binade a b)%Z) in *.
  destruct (scale a b s) as [n d] eqn:Es. simpl fst in Hge; simpl snd in Hge.
  unfold scale in Es. injection Es as En Ed.
  pose proof (pow2_pos s) as HP. pose proof (pow2_pos (- s)) as HM.
  assert (Hd : (0 < d)%Z) by (subst d; lia).
  assert (Hn : (0 <= n)%Z) by (subst n; lia).
  destruct (round_half_even_mul Hd Hn) as [Hm0 Hm].
  set (m := round_half_even n d) in *.
  unfold unscale. rewrite Qred_correct.
  unfold Qle, eps. cbn [Qnum Qden Qmult Qplus].
  rewrite !Z2Pos.id by lia.
  rewrite Pos2Z.inj_mul, !Z2Pos.id by lia.
  split.
  - lia.
  - change (Z.pos (2 ^ 52)) with (2 ^ 52)%Z in *. nia.
Qed.

Lemma fl_bounds (q : Q) : 0 <= q -> 0 <= fl q /\ fl q <= q * (1 + eps).
Proof.
  intros Hq. destruct q as [n d]. unfold fl. cbn [Qnum Qden].
  destruct n as [|p|p].
  - split; [apply Qle_refl|]. unfold Qle; cbn. lia.
  - pose proof (@round53_bounds (Z.pos p) (Z.pos d) eq_refl eq_refl) as H.
    exact H.
  - exfalso. unfold Qle in Hq. cbn in Hq. lia.
Qed.

Lemma to_int_bounds (x : Q) (n : Z) :
  0 <= x -> x < inject_Z (n + 1) -> (0 <= to_int x <= n)%Z.
Proof.
  destruct x as [a b]. unfold Qle, Qlt, to_int, inject_Z. cbn [Qnum Qden].
  intros H0 H1. rewrite Z.mul_1_r in *.
  rewrite Z.quot_div_nonneg by lia.
  split.
  - apply Z.div_pos; lia.
  - apply Z.lt_succ_r. apply Z.div_lt_upper_bound; lia.
Qed.

Lemma truediv_ok (a b : Z) :
  b <> 0%Z -> truediv a b = Ok (fl (inject_Z a / inject_Z b)).
Proof.
  intros Hb. unfold truediv. destruct (Z.eqb_spec b 0); [contradiction|reflexivity].
Qed.

Lemma ratio_le_1 (k n : Z) : (0 <= k <= n)%Z -> (0 < n)%Z ->
  0 <= inject_Z k / inject_Z n /\ inject_Z k / inject_Z n <= 1.
Proof.
  intros Hk Hn.
  assert (Hn' : 0 < inject_Z n) by (unfold Qlt, inject_Z; cbn; lia).
  split.
  - apply Qle_shift_div_l; [exact Hn'|]. rewrite Qmult_0_l.
    unfold Qle, inject_Z; cbn; lia.
  - apply Qle_shift_div_r; [exact Hn'|]. rewrite Qmult_1_l.
    unfold Qle, inject_Z; cbn; lia.
Qed.

(** [int(k / n * 25)] for [0 <= k <= n]. *)
Lemma keyword_score_range (k n : Z) :
  (0 <= k <= n)%Z -> (0 < n)%Z ->
  (0 <= to_int (mul (fl (inject_Z k / inject_Z n)%Q) 25%Q) <= 25)%Z.
Proof.
  intros Hk Hn. destruct (ratio_le_1 Hk Hn) as [H0 H1].
  destruct (fl_bounds H0) as [Hf0 Hf1].
  set (q := inject_Z k / inject_Z n) in *.
  set (f := fl q) in *.
  assert (Hy0 : 0 <= f * 25) by (apply Qmult_le_0_compat; [exact Hf0|discriminate]).
  destruct (fl_bounds Hy0) as [Hg0 Hg1].
  unfold mul. apply to_int_bounds; [exact Hg0|].
  eapply Qle_lt_trans; [exact Hg1|].
  assert (Hf : f <= 1 + eps).
  { eapply Qle_trans; [exact Hf1|].
    rewrite <- (Qmult_1_l (1 + eps)) at 2.
    apply Qmult_le_compat_r; [exact H1|discriminate]. }
  assert (He : 0 <= 1 + eps) by discriminate.
  apply Qle_lt_trans with ((1 + eps) * 25 * (1 + eps)).
  - apply Qmult_le_compat_r; [|exact He].
    apply Qmult_le_compat_r; [exact Hf|discriminate].
  - reflexivity.
Qed.

(** [int(k / n * 25)] stays below 25 for [k < n], as long as the
    quotient of two different lengths does not round to 1. *)
Lemma keyword_score_lt (k n : Z) :
  (0 <= k < n)%Z -> (n <= 2 ^ 50)%Z ->
  (to_int (mul (fl (inject_Z k / inject_Z n)%Q) 25%Q) <= 24)%Z.
Proof.
  intros Hk Hn.
  assert (Hkn : (0 <= k <= n)%Z) by lia. assert (Hn0 : (0 < n)%Z) by lia.
  destruct (ratio_le_1 Hkn Hn0) as [H0 H1].
  destruct (fl_bounds H0) as [Hf0 Hf1].
  set (q := inject_Z k / inject_Z n) in *.
  set (f := fl q) in *.
  assert (Hy0 : 0 <= f * 25) by (apply Qmult_le_0_compat; [exact Hf0|discriminate]).
  destruct (fl_bounds Hy0) as [Hg0 Hg1].
  unfold mul. apply to_int_bounds; [exact Hg0|].
  eapply Qle_lt_trans; [exact Hg1|].
  assert (He : 0 <= 1 + eps) by discriminate.
  apply Qle_lt_trans with (q * (1 + eps) * 25 * (1 + eps)).
  - apply Qmult_le_compat_r; [|exact He].
    apply Qmult_le_compat_r; [exact Hf1|discriminate].
  - assert (Hq : q * ((1 + eps) * (1 + eps)) < 1).
    { unfold q. 
      assert (Hn' : 0 < inject_Z n) by (unfold Qlt, inject_Z; cbn; lia).
      setoid_replace (inject_Z k / inject_Z n * ((1 + eps) * (1 + eps)))
        with (inject_Z k * ((1 + eps) * (1 + eps)) / inject_Z n) by (field; intro E; rewrite E in Hn'; discriminate).
      apply Qlt_shift_div_r; [exact Hn'|]. rewrite Qmult_1_l.
      unfold Qlt, inject_Z, eps. cbn [Qnum Qden Qmult Qplus].
      change (2 ^ 50)%Z with 1125899906842624%Z in Hn.
      cbn. lia. }
    setoid_replace (q * (1 + eps) * 25 * (1 + eps)) with (q * ((1 + eps) * (1 + eps)) * 25) by ring.
    change (inject_Z (24 + 1)) with (1 * 25).
    apply Qmult_lt_compat_r; [reflexivity|exact Hq].
Qed.

End FloatFacts.

(** ** The dictionary of results *)

Lemma eqb_eq (a b : str) : eqb a b = true <-> a = b.
Proof.
  unfold eqb. destruct (list_eq_dec N.eq_dec a b); split; congruence.
Qed.

Lemma dict_set_keys {V : Type} (d : dict V) (key : str) (v : V) (k : str) :
  In k (keys (dict_set d key v)) <-> In k (keys d) \/ k = key.
Proof.
  induction d as [|[k0 v0] d IH]; simpl.
  - intuition congruence.
  - destruct (eqb k0 key) eqn:E; simpl.
    + apply eqb_eq in E. subst. intuition congruence.
    + rewrite IH. tauto.
Qed.

Lemma dict_set_NoDup {V : Type} (d : dict V) (key : str) (v : V) :
  NoDup (keys d) -> NoDup (keys (dict_set d key v)).
Proof.
  induction d as [|[k0 v0] d IH]; simpl; intros H.
  - constructor; [intros []|constructor].
  - inversion H as [|? ? Hn Hd]; subst.
    destruct (eqb k0 key) eqn:E; simpl.
    + constructor; assumption.
    + constructor; [|apply IH; exact Hd].
      intros Hin. apply dict_set_keys in Hin. destruct Hin as [Hin|Hin].
      * exact (Hn Hin).
      * subst. assert (eqb key key = true) by (apply eqb_eq; reflexivity).
        congruence.
Qed.

Lemma dict_set_In {V : Type} (d : dict V) (key : str) (v : V) (k : str) (w : V) :
  In (k, w) (dict_set d key v) -> In (k, w) d \/ (k = key /\ w = v).
Proof.
  induction d as [|[k0 v0] d IH]; simpl.
  - intros [H|[]]. inversion H. tauto.
  - destruct (eqb k0 key) eqn:E; simpl.
    + apply eqb_eq in E. subst. intros [H|H]; [inversion H|]; tauto.
    + intros [H|H]; [tauto|]. apply IH in H. tauto.
Qed.

Lemma count_assessment_le (a : usage) (results : dict KeywordEntry.t) :
  (0 <= count_assessment a results <= len results)%Z.
Proof.
  unfold count_assessment, len.
  pose proof (filter_length_le
    (fun kv : str * KeywordEntry.t => usage_eqb (KeywordEntry.assessment (snd kv)) a)
    results). lia.
Qed.

(** ** The sub-assessments return *)

Section ToolFacts.
Context {U : Unicode}.

Lemma truediv_len (a : Z) (A : Type) (l : list A) :
  l <> [] ->
  truediv a (len l) = Ok (Float.fl (inject_Z a / inject_Z (len l))).
Proof.
  intros H. apply truediv_ok. unfold len. destruct l; [congruence|].
  simpl length. lia.
Qed.

(** [_calculate_keyword_density] never divides by zero. *)
Lemma _calculate_keyword_density_eq (content keyword : str) :
  _calculate_keyword_density content keyword =
  Ok (if (len (split content) =? 0)%Z then 0%Q
      else Float.mul (Float.fl (inject_Z (whole_word_matches content keyword) /
                                inject_Z (len (split content)))) 100).
Proof.
  unfold _calculate_keyword_density.
  destruct (Z.eqb_spec (len (split content)) 0) as [E|E]; [reflexivity|].
  rewrite truediv_ok by exact E. reflexivity.
Qed.

(** The body of the loop computes an entry for every keyword. *)
Lemma keyword_entry_ok (content content_lower headings_text intro keyword : str) :
  exists d e,
    _calculate_keyword_density content keyword = Ok d /\
    keyword_entry content content_lower headings_text intro keyword = Ok e /\
    KeywordEntry.count e = Z.of_nat (count content_lower (lower keyword)) /\
    KeywordEntry.density e = Float.round d 2 /\
    KeywordEntry.assessment e = fst (assess keyword (KeywordEntry.count e) d).
Proof.
  pose proof (_calculate_keyword_density_eq content keyword) as Hd.
  match type of Hd with _ = Ok ?x => set (d := x) in Hd; clearbody d end.
  exists d. unfold keyword_entry. rewrite Hd. cbn [bind].
  destruct (assess keyword (Z.of_nat (count content_lower (lower keyword))) d)
    as [a recs] eqn:E.
  eexists. split; [reflexivity|]. split; [reflexivity|].
  cbn. rewrite E. auto.
Qed.

(** The loop over [target_keywords] ends, with one entry for each
    distinct keyword, which is the entry the body computes for it. *)
Lemma keyword_loop_ok (content content_lower headings_text intro : str)
    (target_keywords : list str) :
  forall (results : dict KeywordEntry.t) (recs : list str),
    NoDup (keys results) ->
    (forall k e, In (k, e) results ->
       keyword_entry content content_lower headings_text intro k = Ok e) ->
    exists results' recs',
      for_each target_keywords
        (keyword_step content content_lower headings_text intro)
        (results, recs) = Ok (results', recs') /\
      NoDup (keys results') /\
      (forall k, In k (keys results') <-> In k (keys results) \/ In k target_keywords) /\
      (forall k e, In (k, e) results' ->
         keyword_entry content content_lower headings_text intro k = Ok e).
Proof.
  induction target_keywords as [|kw kws IH]; intros results recs Hnd Hent.
  - exists results, recs. cbn. repeat split; auto; tauto.
  - cbn [for_each]. unfold keyword_step at 1.
    destruct (keyword_entry_ok content content_lower headings_text intro kw)
      as (d & e & _ & He & _).
    rewrite He. cbn [bind].
    destruct (IH (dict_set results kw e) (recs ++ KeywordEntry.recommendations e))
      as (results' & recs' & Hrun & Hnd' & Hkeys & Hent').
    + apply dict_set_NoDup. exact Hnd.
    + intros k e' Hin. apply dict_set_In in Hin.
      destruct Hin as [Hin|[-> ->]]; [apply Hent; exact Hin|exact He].
    + exists results', recs'. split; [exact Hrun|]. split; [exact Hnd'|].
      split; [|exact Hent'].
      intros k. rewrite Hkeys, dict_set_keys. cbn [In]. intuition congruence.
Qed.

(** [_check_keyword_usage] returns, and its dictionary [keywords] has
    exactly the distinct target keywords as keys. *)
Lemma _check_keyword_usage_ok (content : str) (target_keywords : list str) :
  exists ka,
    _check_keyword_usage content target_keywords = Ok ka /\
    NoDup (keys (Keywords.keywords ka)) /\
    (forall k, In k (keys (Keywords.keywords ka)) <-> In k target_keywords) /\
    (forall k e, In (k, e) (Keywords.keywords ka) ->
       keyword_entry content (lower content) (headings_text_of content)
                     (intro_of content) k = Ok e).
Proof.
  unfold _check_keyword_usage.
  destruct (@keyword_loop_ok content (lower content) (headings_text_of content)
              (intro_of content) target_keywords [] [] (NoDup_nil _)
              (fun k e (H : In (k, e) []) => match H with end))
    as (results & recs & Hrun & Hnd & Hkeys & Hent).
  cbv zeta. eexists. rewrite Hrun. cbn [bind].
  split; [reflexivity|]. cbn [Keywords.keywords].
  split; [exact Hnd|]. split; [|exact Hent].
  intros k. rewrite Hkeys. cbn. tauto.
Qed.

(** The dictionary never has more entries than there are target
    keywords, and has fewer when a keyword is repeated. *)
Lemma keys_length (l target_keywords : list str) :
  NoDup l -> (forall k, In k l <-> In k target_keywords) ->
  (length l <= length target_keywords)%nat /\
  (~ NoDup target_keywords -> (length l < length target_keywords)%nat).
Proof.
  intros Hnd Hkeys.
  assert (Hincl : incl l target_keywords) by (intros k; apply Hkeys).
  split.
  - apply NoDup_incl_length; assumption.
  - intros Hdup. destruct (Nat.lt_ge_cases (length l) (length target_keywords))
      as [H|H]; [exact H|].
    exfalso. apply Hdup. apply NoDup_incl_NoDup with l; assumption.
Qed.

(** [_analyze_readability] returns: both of its divisions are guarded.
    The label is Invalid without sentences or without words, and is
    read off the rounded quotient otherwise. *)
Lemma _analyze_readability_ok (content : str) :
  let total_sentences := len (sentences_of content) in
  let total_words := len (split content) in
  exists r,
    _analyze_readability content = Ok r /\
    (total_sentences = 0%Z \/ total_words = 0%Z ->
       Readability.score r = Invalid) /\
    (total_sentences <> 0%Z -> total_words <> 0%Z ->
       let avg := Float.fl (inject_Z total_words / inject_Z total_sentences) in
       truediv total_words total_sentences = Ok avg /\
       Readability.score r =
         if Float.gtb avg 25 then Difficult
         else if Float.gtb avg 20 then Moderate else Good).
Proof.
  intros total_sentences total_words. unfold _analyze_readability.
  fold total_sentences total_words. cbv zeta.
  destruct (Z.eqb_spec total_sentences 0) as [Es|Es].
  { cbn [orb]. eexists. split; [reflexivity|]. split; [reflexivity|]. tauto. }
  destruct (Z.eqb_spec total_words 0) as [Ew|Ew].
  { cbn [orb]. eexists. split; [reflexivity|]. split; [reflexivity|]. tauto. }
  cbn [orb]. rewrite (truediv_ok total_words Es). cbn [bind].
  set (avg := Float.fl (inject_Z total_words / inject_Z total_sentences)).
  set (long := len (filter (fun p => (100 <? len (split p))%Z) (paragraphs_of content))).
  set (total := len (paragraphs_of content)).
  assert (Hrec : forall recs : list str, exists recs',
    (if (0 <? long)%Z && (0 <? total)%Z
     then ratio <- truediv long total ;;
          Ok (if Float.gtb ratio (Float.fl (3 # 10))
              then recs ++ [u "Consider breaking long paragraphs into smaller chunks."]
              else recs)
     else Ok recs) = Ok recs').
  { intros recs. destruct (0 <? long)%Z; cbn [andb]; [|eexists; reflexivity].
    destruct (Z.ltb_spec 0 total) as [Ht|Ht]; [|eexists; reflexivity].
    rewrite truediv_ok by lia. cbn [bind]. eexists; reflexivity. }
  destruct (Float.gtb avg 25) eqn:E25; [|destruct (Float.gtb avg 20) eqn:E20];
    match goal with
    | |- context [bind (if _ then _ else Ok ?recs) _] =>
        destruct (Hrec recs) as [recs' Hr]; rewrite Hr
    end;
    cbn [bind]; eexists; (split; [reflexivity|]); cbn [Readability.score];
    (split; [tauto|]); intros _ _; (split; [reflexivity|]); reflexivity.
Qed.

(** [_analyze_content_completeness] returns when [min_word_count] is
    an integer; only the first recommendation and the count of
    recommendations in the assessment depend on it. *)
Lemma _analyze_content_completeness_ok (content : str) :
  exists (rest : list str) (note : list str -> str),
    forall min_word_count : Z,
      exists c,
        _analyze_content_completeness content (Some min_word_count) = Ok c /\
        Completeness.word_count c = len (split content) /\
        Completeness.has_intro c =
          match paragraphs_of content with
          | [] => false
          | p :: _ => (30 <=? len (split p))%Z
          end /\
        Completeness.has_conclusion c =
          match paragraphs_of content with
          | [] => false
          | _ => (30 <=? len (split (last (paragraphs_of content) [])))%Z
          end /\
        Completeness.has_bullet_points c =
          (contains bullet content || contains (u "*") content ||
           contains (u "-") content) /\
        Completeness.has_cta c =
          existsb (fun phrase => contains phrase (lower content)) cta_phrases /\
        Completeness.recommendations c =
          (if (len (split content) <? min_word_count)%Z
           then [u "Increase content length to at least " ++ of_Z min_word_count ++
                 u " words (currently " ++ of_Z (len (split content)) ++ u ")."]
           else []) ++ rest /\
        Completeness.assessment c = note (Completeness.recommendations c).
Proof.
  unfold _analyze_content_completeness. cbn [int_lt bind format_optional_int].
  cbv zeta.
  set (has_intro := match paragraphs_of content with
                    | [] => false | p :: _ => (30 <=? len (split p))%Z end).
  set (has_conclusion := match paragraphs_of content with
                         | [] => false
                         | _ => (30 <=? len (split (last (paragraphs_of content) [])))%Z
                         end).
  set (has_bullet_points := contains bullet content || contains (u "*") content ||
                            contains (u "-") content).
  set (has_cta := existsb (fun phrase => contains phrase (lower content)) cta_phrases).
  set (wc := len (split content)).
  exists (append_if (negb has_cta)
            (u "Add a clear call-to-action (CTA) to guide readers on next steps.")
         (append_if (negb has_bullet_points && (500 <? wc)%Z)
            (u "Add bullet points or lists to break up long text sections.")
         (append_if (negb has_conclusion)
            (u "Add a proper conclusion section (at least 30 words).")
         (append_if (negb has_intro)
            (u "Add a proper introduction section (at least 30 words).") [])))).
  exists (fun recommendations =>
    match recommendations with
    | [] => u "Content structure assessment:" ++
            u " Content is well-structured and complete."
    | _ => u "Content structure assessment:" ++
           u " Content needs improvement (" ++
           of_Z (len recommendations) ++ u " issues found)."
    end).
  intros m. eexists. split; [reflexivity|].
  cbn [Completeness.word_count Completeness.has_intro Completeness.has_conclusion
       Completeness.has_bullet_points Completeness.has_cta
       Completeness.recommendations Completeness.assessment].
  repeat (split; [reflexivity|]).
  split; [|reflexivity].
  unfold append_if.
  destruct (wc <? m)%Z, has_intro, has_conclusion,
    (negb has_bullet_points && (500 <? wc)%Z), has_cta; reflexivity.
Qed.

Lemma add_if_points (c : bool) (n score : Z) :
  add_if c n score = (score + points c n)%Z.
Proof. unfold add_if, points. destruct c; lia. Qed.

(** ** The score *)

(** With a keyword list that is not empty and an integer
    [min_word_count], the analysis returns; its four score components
    are these. *)
Lemma analyse_ok (content : str) (target_keywords : list str) (min_word_count : Z) :
  target_keywords <> [] ->
  exists r ka c,
    _analyze_readability content = Ok r /\
    _check_keyword_usage content target_keywords = Ok ka /\
    _analyze_content_completeness content (Some min_word_count) = Ok c /\
    let h := _analyze_headings content in
    let optimal_count := count_assessment Optimal (Keywords.keywords ka) in
    let readability_score :=
      match Readability.score r with
      | Good => 25 | Moderate => 15 | Difficult | Invalid => 5
      end%Z in
    let heading_score :=
      (points (Headings.h1_count h =? 1) 10 + points (0 <? Headings.h2_count h) 10 +
       points (0 <? Headings.h3_count h) 5)%Z in
    let keyword_score :=
      Float.to_int
        (Float.mul (Float.fl (inject_Z optimal_count /
                              inject_Z (len target_keywords))) 25) in
    let completeness_score :=
      (points (min_word_count <=? Completeness.word_count c) 10 +
       points (Completeness.has_intro c) 5 +
       points (Completeness.has_conclusion c) 5 +
       points (Completeness.has_bullet_points c) 3 +
       points (Completeness.has_cta c) 2)%Z in
    analyse content target_keywords (Some min_word_count) =
    Ok {| Analysis.readability := r;
          Analysis.heading_analysis := h;
          Analysis.keyword_analysis := ka;
          Analysis.completeness := c;
          Analysis.score_components :=
            [readability_score; heading_score; keyword_score; completeness_score];
          Analysis.total_score :=
            (readability_score + heading_score + keyword_score +
             completeness_score)%Z;
          Analysis.all_recommendations :=
            Readability.recommendations r ++ Headings.recommendations h ++
            Keywords.recommendations ka ++ Completeness.recommendations c |}.
Proof.
  intros Hkw.
  destruct (_analyze_readability_ok content) as (r & Hr & _).
  destruct (_check_keyword_usage_ok content target_keywords) as (ka & Hka & _).
  destruct (_analyze_content_completeness_ok content) as (rest & note & Hc).
  destruct (Hc min_word_count) as (c & Hc' & _).
  exists r, ka, c. repeat (split; [assumption|]).
  cbv zeta. unfold analyse. rewrite Hr, Hka, Hc'. cbn [bind].
  rewrite truediv_len by exact Hkw. cbn [bind int_ge].
  rewrite !add_if_points. unfold sum.
  destruct (Readability.score r); cbn [app fold_left]; do 2 f_equal;
    try (f_equal; lia); lia.
Qed.

Lemma points_range (c : bool) (n : Z) : (0 <= n -> 0 <= points c n <= n)%Z.
Proof. unfold points. destruct c; lia. Qed.

Lemma optimal_count_le (content : str) (target_keywords : list str) (ka : Keywords.t) :
  _check_keyword_usage content target_keywords = Ok ka ->
  (0 <= count_assessment Optimal (Keywords.keywords ka) <= len target_keywords)%Z /\
  (~ NoDup target_keywords ->
   (count_assessment Optimal (Keywords.keywords ka) < len target_keywords)%Z).
Proof.
  intros Hka.
  destruct (_check_keyword_usage_ok content target_keywords)
    as (ka' & Hka' & Hnd & Hkeys & _).
  assert (ka' = ka) by congruence. subst ka'.
  destruct (@keys_length _ _ Hnd Hkeys) as [Hle Hlt].
  pose proof (count_assessment_le Optimal (Keywords.keywords ka)) as Hc.
  unfold keys in Hle, Hlt. rewrite length_map in Hle, Hlt.
  unfold len in *. split; [lia|]. intros Hdup. specialize (Hlt Hdup). lia.
Qed.

(** C2. For every content string, every keyword list that is not empty
    and every integer [min_word_count], the analysis of [_run] returns
    and its [total_score] lies between 0 and 100. *)
Theorem total_score_range (content : str) (target_keywords : list str)
    (min_word_count : Z) :
  target_keywords <> [] ->
  exists a,
    analyse content target_keywords (Some min_word_count) = Ok a /\
    (0 <= Analysis.total_score a <= 100)%Z.
Proof.
  intros Hkw.
  destruct (analyse_ok content min_word_count Hkw) as (r & ka & c & _ & Hka & _ & Ha).
  cbv zeta in Ha. eexists. split; [exact Ha|]. cbn [Analysis.total_score].
  destruct (optimal_count_le _ _ Hka) as [Hopt _].
  assert (Hlen : (0 < len target_keywords)%Z).
  { unfold len. destruct target_keywords; [congruence|]. simpl length. lia. }
  pose proof (keyword_score_range Hopt Hlen) as Hks.
  set (h := _analyze_headings content) in *.
  pose proof (@points_range (Headings.h1_count h =? 1)%Z 10).
  pose proof (@points_range (0 <? Headings.h2_count h)%Z 10).
  pose proof (@points_range (0 <? Headings.h3_count h)%Z 5).
  pose proof (@points_range (min_word_count <=? Completeness.word_count c)%Z 10).
  pose proof (@points_range (Completeness.has_intro c) 5).
  pose proof (@points_range (Completeness.has_conclusion c) 5).
  pose proof (@points_range (Completeness.has_bullet_points c) 3).
  pose proof (@points_range (Completeness.has_cta c) 2).
  destruct (Readability.score r); lia.
Qed.

(** C3. For every valid request the score components are four, each
    between 0 and 25, and the total is their sum: readability gives
    25 for Good, 15 for Moderate and 5 for Difficult or Invalid;
    headings give 10 for exactly one H1, 10 for some H2 and 5 for some
    H3; keywords give [int(optimal_count / len(target_keywords) * 25)]
    in float arithmetic; completeness gives 10 for enough words, 5 for
    an introduction, 5 for a conclusion, 3 for bullet points and 2 for
    a call to action. *)
Theorem score_is_sum_of_four_components (content : str)
    (target_keywords : list str) (min_word_count : Z) :
  target_keywords <> [] ->
  exists a ratio readability_score heading_score keyword_score completeness_score,
    analyse content target_keywords (Some min_word_count) = Ok a /\
    Analysis.score_components a =
      [readability_score; heading_score; keyword_score; completeness_score] /\
    Analysis.total_score a =
      (readability_score + heading_score + keyword_score + completeness_score)%Z /\
    readability_score =
      match Readability.score (Analysis.readability a) with
      | Good => 25 | Moderate => 15 | Difficult | Invalid => 5
      end%Z /\
    heading_score =
      (let h := Analysis.heading_analysis a in
       points (Headings.h1_count h =? 1) 10 +
       points (0 <? Headings.h2_count h) 10 +
       points (0 <? Headings.h3_count h) 5)%Z /\
    truediv (count_assessment Optimal
               (Keywords.keywords (Analysis.keyword_analysis a)))
            (len target_keywords) = Ok ratio /\
    keyword_score = Float.to_int (Float.mul ratio 25) /\
    completeness_score =
      (let c := Analysis.completeness a in
       points (min_word_count <=? Completeness.word_count c) 10 +
       points (Completeness.has_intro c) 5 +
       points (Completeness.has_conclusion c) 5 +
       points (Completeness.has_bullet_points c) 3 +
       points (Completeness.has_cta c) 2)%Z /\
    (0 <= readability_score <= 25)%Z /\ (0 <= heading_score <= 25)%Z /\
    (0 <= keyword_score <= 25)%Z /\ (0 <= completeness_score <= 25)%Z.
Proof.
  intros Hkw.
  destruct (analyse_ok content min_word_count Hkw) as (r & ka & c & _ & Hka & _ & Ha).
  cbv zeta in Ha.
  destruct (optimal_count_le _ _ Hka) as [Hopt _].
  assert (Hlen : (0 < len target_keywords)%Z).
  { unfold len. destruct target_keywords; [congruence|]. simpl length. lia. }
  pose proof (keyword_score_range Hopt Hlen) as Hks.
  do 6 eexists. split; [exact Ha|].
  cbn [Analysis.score_components Analysis.total_score Analysis.readability
       Analysis.heading_analysis Analysis.keyword_analysis Analysis.completeness].
  do 4 (split; [reflexivity|]).
  split; [apply truediv_len; exact Hkw|].
  do 2 (split; [reflexivity|]).
  set (h := _analyze_headings content) in *.
  pose proof (@points_range (Headings.h1_count h =? 1)%Z 10).
  pose proof (@points_range (0 <? Headings.h2_count h)%Z 10).
  pose proof (@points_range (0 <? Headings.h3_count h)%Z 5).
  pose proof (@points_range (min_word_count <=? Completeness.word_count c)%Z 10).
  pose proof (@points_range (Completeness.has_intro c) 5).
  pose proof (@points_range (Completeness.has_conclusion c) 5).
  pose proof (@points_range (Completeness.has_bullet_points c) 3).
  pose proof (@points_range (Completeness.has_cta c) 2).
  split; [destruct (Readability.score r); lia|].
  split; [lia|]. split; [exact Hks|]. lia.
Qed.

(** ** Labels *)

Lemma gtb_true (x y : Q) : Float.gtb x y = true <-> (y < x)%Q.
Proof.
  unfold Float.gtb. rewrite negb_true_iff.
  destruct (Qle_bool x y) eqn:E.
  - apply Qle_bool_iff in E. split; [discriminate|].
    intros H. exfalso. exact (Qlt_not_le _ _ H E).
  - split; [intros _|reflexivity]. apply Qnot_le_lt. intros H.
    apply Qle_bool_iff in H. congruence.
Qed.

Lemma gtb_false (x y : Q) : Float.gtb x y = false <-> (x <= y)%Q.
Proof.
  unfold Float.gtb. rewrite negb_false_iff. apply Qle_bool_iff.
Qed.

(** The branch that labels a keyword, read as the priority list of its
    conditions. *)
Lemma assess_label (keyword : str) (count : Z) (density : Q) :
  let label := fst (assess keyword count density) in
  (count = 0%Z -> label = Missing) /\
  (count = 1%Z -> label = Underused) /\
  (count <> 0%Z -> count <> 1%Z -> (3 < density)%Q -> label = Overused) /\
  (count <> 0%Z -> count <> 1%Z -> ~ (3 < density)%Q ->
   (1 # 2 <= density)%Q /\ (density <= 5 # 2)%Q -> label = Optimal) /\
  (count <> 0%Z -> count <> 1%Z -> ~ (3 < density)%Q ->
   ~ ((1 # 2 <= density)%Q /\ (density <= 5 # 2)%Q) -> label = Present).
Proof.
  cbv zeta. unfold assess.
  destruct (Z.eqb_spec count 0) as [E0|E0].
  { cbn. repeat split; intros; try reflexivity; try lia. }
  destruct (Z.eqb_spec count 1) as [E1|E1].
  { cbn. repeat split; intros; try reflexivity; try lia. }
  destruct (Float.gtb density 3) eqn:E3.
  { apply gtb_true in E3. cbn. repeat split; intros; try reflexivity; tauto. }
  apply gtb_false in E3.
  assert (N3 : ~ (3 < density)%Q) by (apply Qle_not_lt; exact E3).
  unfold Float.geb, Float.leb.
  split; [intros; lia|]. split; [intros; lia|]. split; [intros; tauto|].
  destruct (Qle_bool (1 # 2) density) eqn:Elo; cbn [andb];
    [destruct (Qle_bool density (5 # 2)) eqn:Ehi|]; cbn [fst].
  - split; [reflexivity|]. intros _ _ _ H. exfalso. apply H.
    split; apply Qle_bool_iff; assumption.
  - split; [|reflexivity]. intros _ _ _ [_ H].
    apply Qle_bool_iff in H. congruence.
  - split; [|reflexivity]. intros _ _ _ [H _].
    apply Qle_bool_iff in H. congruence.
Qed.

(** C5, amended. Every entry of the keyword results is labelled by
    the first rule that applies: count 0 gives Missing; count 1 gives
    Underused; density above 3.0 gives Overused; density from 0.5 to
    2.5 gives Optimal; anything else gives Present. The count is the
    entry's [count]; the density of these rules is the one
    [_calculate_keyword_density] returns, before it is rounded: the
    density that the entry carries is that one rounded to two
    decimals. *)
Theorem label_priority (content : str) (target_keywords : list str) :
  exists ka,
    _check_keyword_usage content target_keywords = Ok ka /\
    forall keyword e, In (keyword, e) (Keywords.keywords ka) ->
      exists density,
        _calculate_keyword_density content keyword = Ok density /\
        KeywordEntry.density e = Float.round density 2 /\
        let count := KeywordEntry.count e in
        let label := KeywordEntry.assessment e in
        (count = 0%Z -> label = Missing) /\
        (count = 1%Z -> label = Underused) /\
        (count <> 0%Z -> count <> 1%Z -> (3 < density)%Q -> label = Overused) /\
        (count <> 0%Z -> count <> 1%Z -> ~ (3 < density)%Q ->
         (1 # 2 <= density)%Q /\ (density <= 5 # 2)%Q -> label = Optimal) /\
        (count <> 0%Z -> count <> 1%Z -> ~ (3 < density)%Q ->
         ~ ((1 # 2 <= density)%Q /\ (density <= 5 # 2)%Q) -> label = Present).
Proof.
  destruct (_check_keyword_usage_ok content target_keywords)
    as (ka & Hka & _ & _ & Hent).
  exists ka. split; [exact Hka|]. intros keyword e Hin.
  specialize (Hent _ _ Hin).
  destruct (keyword_entry_ok content (lower content) (headings_text_of content)
              (intro_of content) keyword) as (d & e' & Hd & He' & _ & Hden & Hlab).
  assert (e' = e) by congruence. subst e'.
  exists d. split; [exact Hd|]. split; [exact Hden|].
  cbv zeta. rewrite Hlab. apply assess_label.
Qed.

(** C6. [_analyze_readability] returns for every content, so it never
    divides by zero. Its label is Invalid exactly when there is no
    sentence or no word; otherwise the average words per sentence is
    computed and the label is Difficult above 25, Moderate above 20 up
    to 25, and Good up to 20. *)
Theorem readability_label (content : str) :
  let total_sentences := len (sentences_of content) in
  let total_words := len (split content) in
  exists r,
    _analyze_readability content = Ok r /\
    (Readability.score r = Invalid <->
     total_sentences = 0%Z \/ total_words = 0%Z) /\
    (total_sentences <> 0%Z -> total_words <> 0%Z ->
     exists avg,
       truediv total_words total_sentences = Ok avg /\
       ((25 < avg)%Q -> Readability.score r = Difficult) /\
       ((20 < avg)%Q /\ (avg <= 25)%Q -> Readability.score r = Moderate) /\
       ((avg <= 20)%Q -> Readability.score r = Good)).
Proof.
  intros total_sentences total_words.
  destruct (_analyze_readability_ok content) as (r & Hr & Hinv & Hlab).
  fold total_sentences total_words in Hinv, Hlab.
  assert (Hcases : total_sentences <> 0%Z -> total_words <> 0%Z ->
    exists avg,
      truediv total_words total_sentences = Ok avg /\
      Readability.score r <> Invalid /\
      ((25 < avg)%Q -> Readability.score r = Difficult) /\
      ((20 < avg)%Q /\ (avg <= 25)%Q -> Readability.score r = Moderate) /\
      ((avg <= 20)%Q -> Readability.score r = Good)).
  { intros Hs Hw. destruct (Hlab Hs Hw) as [Hdiv Hscore]. cbv zeta in Hdiv, Hscore.
    eexists. split; [exact Hdiv|]. rewrite Hscore.
    set (avg := Float.fl (inject_Z total_words / inject_Z total_sentences)).
    destruct (Float.gtb avg 25) eqn:E25.
    - apply gtb_true in E25. split; [discriminate|].
      split; [reflexivity|]. split.
      + intros [_ H]. exfalso. exact (Qlt_not_le _ _ E25 H).
      + intros H. exfalso. apply (Qlt_not_le _ _ E25).
        eapply Qle_trans; [exact H|]. discriminate.
    - apply gtb_false in E25. destruct (Float.gtb avg 20) eqn:E20.
      + apply gtb_true in E20. split; [discriminate|]. split.
        * intros H. exfalso. exact (Qlt_not_le _ _ H E25).
        * split; [reflexivity|]. intros H. exfalso. exact (Qlt_not_le _ _ E20 H).
      + apply gtb_false in E20. split; [discriminate|]. split.
        * intros H. exfalso. exact (Qlt_not_le _ _ H E25).
        * split; [|reflexivity]. intros [H _]. exfalso. exact (Qlt_not_le _ _ H E20). }
  exists r. split; [exact Hr|]. split.
  - split; [|exact Hinv].
    intros Hi. destruct (Z.eq_dec total_sentences 0) as [Es|Es]; [tauto|].
    destruct (Z.eq_dec total_words 0) as [Ew|Ew]; [tauto|].
    destruct (Hcases Es Ew) as (avg & _ & Hn & _). contradiction.
  - intros Hs Hw. destruct (Hcases Hs Hw) as (avg & Hdiv & _ & H).
    exists avg. split; [exact Hdiv|exact H].
Qed.

(** ** Headings *)

Lemma when_keeps (c : bool) (rec note x : str) (st : list str * str) :
  In x (fst st) -> In x (fst (when c rec note st)).
Proof.
  unfold when. destruct c; cbn [fst]; [|auto].
  intros H. apply in_or_app. left. exact H.
Qed.

Lemma when_adds (rec note : str) (st : list str * str) :
  In rec (fst (when true rec note st)).
Proof.
  unfold when. cbn [fst]. apply in_or_app. right. left. reflexivity.
Qed.

(** An H3 heading without any H2 heading is reported. *)
Lemma hierarchy_h3_reported (content : str) :
  let h := _analyze_headings content in
  (0 < Headings.h3_count h)%Z -> Headings.h2_count h = 0%Z ->
  In hierarchy_h3_message (Headings.recommendations h).
Proof.
  cbv zeta. unfold _analyze_headings.
  cbn [Headings.h3_count Headings.h2_count Headings.recommendations].
  intros H3 H2.
  apply Z.ltb_lt in H3. apply Z.eqb_eq in H2. rewrite H3, H2. cbn [andb].
  match goal with
  | |- In _ (fst (match fst ?st with _ => _ end)) =>
      assert (Hin : In hierarchy_h3_message (fst st));
      [|destruct (fst st) eqn:E; [destruct Hin|rewrite E; exact Hin]]
  end.
  apply when_keeps. apply when_adds.
Qed.

(** ** The frame of [min_word_count] *)

Lemma word_count_line_ok (c : Completeness.t) (min_word_count : Z) :
  word_count_line c (Some min_word_count) =
  Ok (u "- **Word Count:** " ++ of_Z (Completeness.word_count c) ++ u " words" ++
      if (Completeness.word_count c <? min_word_count)%Z
      then u " (Recommended: " ++ of_Z min_word_count ++ u "+ words)" ++ newline
      else newline).
Proof.
  unfold word_count_line. cbn [int_lt bind format_optional_int].
  destruct (Completeness.word_count c <? min_word_count)%Z;
    rewrite <- ?app_assoc; reflexivity.
Qed.

(** C9. For every content and keyword list, the readability, heading
    and keyword sub-assessments and their three score components are
    the same for every [min_word_count]; so are the word count and the
    four flags of the completeness sub-assessment. [min_word_count]
    only decides, by its comparison with the word count, the 10 points
    of the completeness component, the word-count recommendation and
    the word-count line of the overview. *)
Theorem min_word_count_frame (content : str) (target_keywords : list str) :
  target_keywords <> [] ->
  exists r ka word_count has_intro has_conclusion has_bullet_points has_cta
         rest readability_score heading_score keyword_score base,
    _analyze_readability content = Ok r /\
    _check_keyword_usage content target_keywords = Ok ka /\
    forall min_word_count : Z,
      exists a,
        analyse content target_keywords (Some min_word_count) = Ok a /\
        Analysis.readability a = r /\
        Analysis.heading_analysis a = _analyze_headings content /\
        Analysis.keyword_analysis a = ka /\
        Completeness.word_count (Analysis.completeness a) = word_count /\
        Completeness.has_intro (Analysis.completeness a) = has_intro /\
        Completeness.has_conclusion (Analysis.completeness a) = has_conclusion /\
        Completeness.has_bullet_points (Analysis.completeness a) =
          has_bullet_points /\
        Completeness.has_cta (Analysis.completeness a) = has_cta /\
        Analysis.score_components a =
          [readability_score; heading_score; keyword_score;
           (points (min_word_count <=? word_count) 10 + base)%Z] /\
        Completeness.recommendations (Analysis.completeness a) =
          (if (word_count <? min_word_count)%Z
           then [u "Increase content length to at least " ++ of_Z min_word_count ++
                 u " words (currently " ++ of_Z word_count ++ u ")."]
           else []) ++ rest /\
        word_count_line (Analysis.completeness a) (Some min_word_count) =
          Ok (u "- **Word Count:** " ++ of_Z word_count ++ u " words" ++
              if (word_count <? min_word_count)%Z
              then u " (Recommended: " ++ of_Z min_word_count ++ u "+ words)" ++
                   newline
              else newline).
Proof.
  intros Hkw.
  destruct (_analyze_readability_ok content) as (r & Hr & _).
  destruct (_check_keyword_usage_ok content target_keywords) as (ka & Hka & _).
  destruct (_analyze_content_completeness_ok content) as (rest & note & Hc).
  exists r, ka. do 5 eexists. exists rest. do 4 eexists.
  split; [exact Hr|]. split; [exact Hka|]. intros m.
  destruct (analyse_ok content m Hkw) as (r' & ka' & c & Hr' & Hka' & Hc' & Ha).
  destruct (Hc m) as (c' & Hc'' & Hwc & Hhi & Hhc & Hhb & Hcta & Hrecs & _).
  assert (r' = r) by congruence. assert (ka' = ka) by congruence.
  assert (c' = c) by congruence. subst r' ka' c'.
  cbv zeta in Ha. eexists. split; [exact Ha|].
  cbn [Analysis.readability Analysis.heading_analysis Analysis.keyword_analysis
       Analysis.completeness Analysis.score_components].
  do 3 (split; [reflexivity|]).
  split; [exact Hwc|]. split; [exact Hhi|]. split; [exact Hhc|].
  split; [exact Hhb|]. split; [exact Hcta|].
  split; [|split; [exact Hrecs|]].
  - rewrite Hwc, Hhi, Hhc, Hhb, Hcta. do 3 f_equal.
    rewrite <- !Z.add_assoc. reflexivity.
  - rewrite word_count_line_ok, Hwc. reflexivity.
Qed.

(** ** Repeated keywords *)

Lemma eqb_refl (a : str) : eqb a a = true.
Proof. apply eqb_eq. reflexivity. Qed.



(** ** The reported density *)

(** The density that an entry of the keyword results reports, from
    the matches that the pattern of [_calculate_keyword_density]
    finds: their number divided by the number of words, times 100, in
    float arithmetic and rounded to two decimals. *)
Lemma entry_density (content : str) (target_keywords : list str) :
  exists ka,
    _check_keyword_usage content target_keywords = Ok ka /\
    forall keyword e, In (keyword, e) (Keywords.keywords ka) ->
      let total_words := len (split content) in
      let keyword_count := whole_word_matches content keyword in
      (total_words <> 0%Z ->
       exists quotient,
         truediv keyword_count total_words = Ok quotient /\
         _calculate_keyword_density content keyword =
           Ok (Float.mul quotient 100) /\
         KeywordEntry.density e = Float.round (Float.mul quotient 100) 2) /\
      (total_words = 0%Z -> KeywordEntry.density e = 0%Q) /\
      (total_words = 100%Z -> keyword_count = 2%Z ->
       KeywordEntry.density e = 2%Q).
Proof.
  destruct (_check_keyword_usage_ok content target_keywords)
    as (ka & Hka & _ & _ & Hent).
  exists ka. split; [exact Hka|]. intros keyword e Hin. cbv zeta.
  specialize (Hent _ _ Hin).
  destruct (keyword_entry_ok content (lower content) (headings_text_of content)
              (intro_of content) keyword) as (d & e' & Hd & He' & _ & Hden & _).
  assert (e' = e) by congruence. subst e'.
  rewrite _calculate_keyword_density_eq in Hd. injection Hd as Hd.
  rewrite Hden, <- Hd. split; [|split].
  - intros Hw. rewrite truediv_ok by exact Hw.
    rewrite _calculate_keyword_density_eq.
    destruct (Z.eqb_spec (len (split content)) 0); [contradiction|].
    eexists. repeat split; reflexivity.
  - intros ->. reflexivity.
  - intros -> ->. vm_compute. reflexivity.
Qed.

(** ** Errors *)

Context {L : Library}.

Lemma format_result_ok (a : Analysis.t) (target_keywords : list str)
    (min_word_count : Z) :
  exists report, format_result a target_keywords (Some min_word_count) = Ok report.
Proof.
  unfold format_result. rewrite word_count_line_ok. cbn [bind].
  eexists. reflexivity.
Qed.

(** With [min_word_count] null the completeness sub-assessment raises
    a [TypeError]. *)
Lemma analyse_null (content : str) (target_keywords : list str) :
  analyse content target_keywords None =
  Raise (TypeError
    (u "'<' not supported between instances of 'int' and 'NoneType'")).
Proof.
  unfold analyse.
  destruct (_analyze_readability_ok content) as (r & Hr & _).
  destruct (_check_keyword_usage_ok content target_keywords) as (ka & Hka & _).
  rewrite Hr, Hka. reflexivity.
Qed.

(** C7. [_run] is a function from strings to strings: the handlers of
    its [try] statement turn every exception into a result. Input that
    [json.loads] rejects gives "Error: Invalid JSON input."; JSON that
    is not an object gives the message of the [AttributeError]; content
    that is missing or empty gives "Error: No content provided for
    analysis."; with content, a keyword list that is missing or empty
    gives "Error: No target keywords provided for analysis.". Every
    other request gives the formatted report, or, when its
    [min_word_count] is null, the message of the [TypeError]. *)
Theorem run_reports_errors (tool_input : str) :
  (forall msg, json_loads tool_input = Raise (JSONDecodeError msg) ->
     _run tool_input = u "Error: Invalid JSON input.") /\
  (forall type_name, json_loads tool_input = Ok (JOther type_name) ->
     _run tool_input =
     u "Error executing Content Analysis tool: " ++
     u "'" ++ type_name ++ u "' object has no attribute 'get'") /\
  (forall d, json_loads tool_input = Ok (JObject d) ->
     get (content d) [] = [] ->
     _run tool_input = u "Error: No content provided for analysis.") /\
  (forall d, json_loads tool_input = Ok (JObject d) ->
     get (content d) [] <> [] -> get (target_keywords d) [] = [] ->
     _run tool_input = u "Error: No target keywords provided for analysis.") /\
  (forall d, json_loads tool_input = Ok (JObject d) ->
     get (content d) [] <> [] -> get (target_keywords d) [] <> [] ->
     match get (min_word_count d) (Some 300%Z) with
     | Some m =>
         exists a report,
           analyse (get (content d) []) (get (target_keywords d) []) (Some m) = Ok a /\
           format_result a (get (target_keywords d) []) (Some m) = Ok report /\
           _run tool_input = report
     | None =>
         _run tool_input =
         u "Error executing Content Analysis tool: " ++
         u "'<' not supported between instances of 'int' and 'NoneType'"
     end).
Proof.
  unfold _run, _run_try.
  split; [intros msg ->; reflexivity|].
  split; [intros type_name ->; reflexivity|].
  split; [intros d -> Hc; cbn [bind as_dict]; rewrite Hc; reflexivity|].
  split.
  - intros d -> Hc Hk. cbn [bind as_dict].
    destruct (get (content d) []) as [|x content']; [congruence|].
    rewrite Hk. reflexivity.
  - intros d -> Hc Hk. cbn [bind as_dict].
    destruct (get (content d) []) as [|x content'] eqn:Ec; [congruence|].
    destruct (get (target_keywords d) []) as [|k kws] eqn:Ek; [congruence|].
    destruct (get (min_word_count d) (Some 300%Z)) as [m|].
    + destruct (analyse_ok (x :: content') m Hk) as (r & ka & c & _ & _ & _ & Ha).
      cbv zeta in Ha. rewrite Ha. cbn [bind].
      match goal with
      | |- exists a report, Ok ?a0 = Ok a /\ _ =>
          destruct (format_result_ok a0 (k :: kws) m) as [report Hrep];
          exists a0, report
      end.
      rewrite Hrep. auto.
    + rewrite analyse_null. reflexivity.
Qed.

End ToolFacts.

(** ** Concrete requests *)

Example sentences_of_example :
  sentences_of (u "Hello world. How are you?! fine") =
  [u "Hello world"; u "How are you"; u "fine"].
Proof. vm_compute. reflexivity. Qed.

Example whole_word_example :
  Re.findall (keyword_pattern (u "SEO")) (lower (u "Seo, seos and SEO_x; seo."))
  = [u "seo"; u "seo"].
Proof. vm_compute. reflexivity. Qed.

(** A heading may start on the line after its marker: [\s+] also
    passes line ends. *)
Example heading_example :
  Re.findall h2_pattern (u "## One" ++ newline ++ u "##" ++ newline ++ u "Two" ++
                         newline ++ u "### Three" ++ newline ++ u "##Four")
  = [u "One"; u "Two"].
Proof. vm_compute. reflexivity. Qed.

Example eight_h2_headings :
  let h := _analyze_headings
             (concat (repeat (u "## Section" ++ newline) 8)) in
  Headings.h2_count h = 8%Z /\
  In (u "Consider consolidating some sections - too many H2 headings can dilute focus.")
     (Headings.recommendations h).
Proof.
  cbv zeta. split; [vm_compute; reflexivity|].
  vm_compute. right. left. reflexivity.
Qed.

Example density_example :
  _calculate_keyword_density hundred_words (u "Seo") = Ok 2%Q.
Proof. vm_compute. reflexivity. Qed.

Example readability_example :
  exists r,
    _analyze_readability sample_content = Ok r /\
    Readability.score r = Good /\
    Readability.average_words_per_sentence r = Flt 7.
Proof. eexists. split; [vm_compute; reflexivity|]. split; reflexivity. Qed.

(** C1. For the content "SEO-driven seos" and the keyword "seo" the
    entry reports the count 2, the number of times "seo" occurs as a
    substring, while "seo" matches once as a whole word: that one
    match is what the density of the same entry is computed from. *)
Theorem count_counts_substrings :
  exists ka e,
    _check_keyword_usage (u "SEO-driven seos") [u "seo"] = Ok ka /\
    Keywords.keywords ka = [(u "seo", e)] /\
    KeywordEntry.count e = 2%Z /\
    whole_word_matches (u "SEO-driven seos") (u "seo") = 1%Z /\
    len (split (u "SEO-driven seos")) = 2%Z /\
    KeywordEntry.density e = 50%Q.
Proof.
  do 2 eexists. split; [vm_compute; reflexivity|].
  cbn [Keywords.keywords]. split; [reflexivity|].
  cbn [KeywordEntry.count KeywordEntry.density].
  repeat split; vm_compute; reflexivity.
Qed.

(** C8. The content "### Sub" has one H3 heading and no H2 heading,
    and the recommendations name the broken hierarchy; so they do for
    every content with some H3 heading and no H2 heading. *)
Theorem h3_without_h2 :
  (let h := _analyze_headings (u "### Sub") in
   Headings.h3_count h = 1%Z /\ Headings.h2_count h = 0%Z /\
   Headings.h1_count h = 0%Z /\
   In (u "Fix heading hierarchy: H3 headings should be used after H2 headings, not directly after H1.")
      (Headings.recommendations h)) /\
  (forall (U : Unicode) (content : str),
     let h := _analyze_headings content in
     (0 < Headings.h3_count h)%Z -> Headings.h2_count h = 0%Z ->
     In (u "Fix heading hierarchy: H3 headings should be used after H2 headings, not directly after H1.")
        (Headings.recommendations h)).
Proof.
  split.
  - cbv zeta. repeat split; try (vm_compute; reflexivity).
    vm_compute. right. left. reflexivity.
  - intros U content. exact (hierarchy_h3_reported content).
Qed.

(** ** The theorems at concrete requests *)

Lemma total_score_range_witness :
  [u "seo"] <> [] /\
  exists a,
    analyse sample_content [u "seo"] (Some 300%Z) = Ok a /\
    (0 <= Analysis.total_score a <= 100)%Z.
Proof.
  split; [discriminate|].
  apply (total_score_range sample_content 300 (target_keywords := [u "seo"])).
  discriminate.
Defined.

Lemma score_is_sum_of_four_components_witness :
  [u "seo"; u "content"] <> [] /\
  exists a ratio readability_score heading_score keyword_score completeness_score,
    analyse sample_content [u "seo"; u "content"] (Some 10%Z) = Ok a /\
    Analysis.score_components a =
      [readability_score; heading_score; keyword_score; completeness_score] /\
    Analysis.total_score a =
      (readability_score + heading_score + keyword_score + completeness_score)%Z /\
    readability_score =
      match Readability.score (Analysis.readability a) with
      | Good => 25 | Moderate => 15 | Difficult | Invalid => 5
      end%Z /\
    heading_score =
      (let h := Analysis.heading_analysis a in
       points (Headings.h1_count h =? 1) 10 +
       points (0 <? Headings.h2_count h) 10 +
       points (0 <? Headings.h3_count h) 5)%Z /\
    truediv (count_assessment Optimal
               (Keywords.keywords (Analysis.keyword_analysis a)))
            (len [u "seo"; u "content"]) = Ok ratio /\
    keyword_score = Float.to_int (Float.mul ratio 25) /\
    completeness_score =
      (let c := Analysis.completeness a in
       points (10 <=? Completeness.word_count c) 10 +
       points (Completeness.has_intro c) 5 +
       points (Completeness.has_conclusion c) 5 +
       points (Completeness.has_bullet_points c) 3 +
       points (Completeness.has_cta c) 2)%Z /\
    (0 <= readability_score <= 25)%Z /\ (0 <= heading_score <= 25)%Z /\
    (0 <= keyword_score <= 25)%Z /\ (0 <= completeness_score <= 25)%Z.
Proof.
  split; [discriminate|].
  apply (score_is_sum_of_four_components sample_content 10
           (target_keywords := [u "seo"; u "content"])).
  discriminate.
Defined.

Lemma min_word_count_frame_witness :
  [u "seo"] <> [] /\
  exists a300 a5,
    analyse sample_content [u "seo"] (Some 300%Z) = Ok a300 /\
    analyse sample_content [u "seo"] (Some 5%Z) = Ok a5 /\
    Analysis.readability a300 = Analysis.readability a5 /\
    Analysis.heading_analysis a300 = Analysis.heading_analysis a5 /\
    Analysis.keyword_analysis a300 = Analysis.keyword_analysis a5 /\
    firstn 3 (Analysis.score_components a300) =
    firstn 3 (Analysis.score_components a5).
Proof.
  split; [discriminate|].
  destruct (min_word_count_frame sample_content (target_keywords := [u "seo"]))
    as (r & ka & wc & hi & hc & hb & hcta & rest & rs & hs & ks & base &
        _ & _ & H); [discriminate|].
  destruct (H 300%Z) as (a300 & Ha300 & Hr300 & Hh300 & Hk300 & _ & _ & _ & _ & _
                         & Hs300 & _).
  destruct (H 5%Z) as (a5 & Ha5 & Hr5 & Hh5 & Hk5 & _ & _ & _ & _ & _ & Hs5 & _).
  exists a300, a5. split; [exact Ha300|]. split; [exact Ha5|].
  rewrite Hr300, Hr5, Hh300, Hh5, Hk300, Hk5, Hs300, Hs5. repeat split.
Defined.

Lemma run_reports_errors_witness :
  @_run latin1 sample_library [] = u "Error: Invalid JSON input." /\
  @_run latin1 sample_library (u "[]") =
    u "Error executing Content Analysis tool: 'list' object has no attribute 'get'" /\
  @_run latin1 sample_library (u "{}") =
    u "Error: No content provided for analysis." /\
  @_run latin1 sample_library content_only =
    u "Error: No target keywords provided for analysis.".
Proof.
  split; [|split; [|split]].
  - apply (proj1 (@run_reports_errors latin1 sample_library []))
      with (msg := u "Expecting value: line 1 column 1 (char 0)").
    reflexivity.
  - apply (proj1 (proj2 (@run_reports_errors latin1 sample_library (u "[]")))
             (u "list")).
    reflexivity.
  - apply (proj1 (proj2 (proj2
             (@run_reports_errors latin1 sample_library (u "{}")))))
      with (d := {| content := None; target_keywords := None;
                    min_word_count := None |}); reflexivity.
  - apply (proj1 (proj2 (proj2 (proj2
             (@run_reports_errors latin1 sample_library content_only)))))
      with (d := {| content := Some (u "x"); target_keywords := None;
                    min_word_count := None |});
      [reflexivity|discriminate|reflexivity].
Defined.


Lemma label_priority_witness :
  exists ka e,
    _check_keyword_usage hundred_words [u "SEO"] = Ok ka /\
    Keywords.keywords ka = [(u "SEO", e)] /\
    KeywordEntry.count e = 2%Z /\
    _calculate_keyword_density hundred_words (u "SEO") = Ok 2%Q /\
    KeywordEntry.assessment e = Optimal.
Proof.
  destruct (label_priority hundred_words [u "SEO"]) as (ka & Hka & H).
  assert (Hk : exists e, Keywords.keywords ka = [(u "SEO", e)] /\
                         KeywordEntry.count e = 2%Z).
  { assert (E : _check_keyword_usage hundred_words [u "SEO"] = Ok ka) by exact Hka.
    vm_compute in E. injection E as E. rewrite <- E. eexists.
    split; reflexivity. }
  destruct Hk as (e & He & Hcount). exists ka, e.
  split; [exact Hka|]. split; [exact He|]. split; [exact Hcount|].
  destruct (H (u "SEO") e) as (d & Hd & _ & _ & _ & _ & Hopt & _).
  { rewrite He. left. reflexivity. }
  assert (Ed : d = 2%Q).
  { assert (E : _calculate_keyword_density hundred_words (u "SEO") = Ok d)
      by exact Hd.
    vm_compute in E. injection E as E. symmetry. exact E. }
  subst d. split; [exact Hd|].
  apply Hopt.
  - rewrite Hcount. discriminate.
  - rewrite Hcount. discriminate.
  - vm_compute. discriminate.
  - split; vm_compute; discriminate.
Defined.

Lemma readability_label_witness :
  len (sentences_of sample_content) = 2%Z /\
  len (split sample_content) = 14%Z /\
  truediv 14 2 = Ok 7%Q /\
  exists r,
    _analyze_readability sample_content = Ok r /\ Readability.score r = Good.
Proof.
  assert (Hs : len (sentences_of sample_content) = 2%Z) by (vm_compute; reflexivity).
  assert (Hw : len (split sample_content) = 14%Z) by (vm_compute; reflexivity).
  assert (Hq : truediv 14 2 = Ok 7%Q) by (vm_compute; reflexivity).
  split; [exact Hs|]. split; [exact Hw|]. split; [exact Hq|].
  destruct (readability_label sample_content) as (r & Hr & _ & Hlab).
  exists r. split; [exact Hr|].
  rewrite Hs, Hw in Hlab.
  destruct Hlab as (avg & Havg & _ & _ & Hgood); [discriminate|discriminate|].
  apply Hgood.
  assert (E : avg = 7%Q) by congruence.
  rewrite E. vm_compute. discriminate.
Defined.

Lemma h3_without_h2_witness :
  let content := u "# Title" ++ newline ++ u "### One" ++ newline ++ u "### Two" in
  let h := _analyze_headings content in
  (0 < Headings.h3_count h)%Z /\ Headings.h2_count h = 0%Z /\
  In hierarchy_h3_message (Headings.recommendations h).
Proof.
  cbv zeta.
  assert (H3 : (0 < Headings.h3_count (_analyze_headings
                  (u "# Title" ++ newline ++ u "### One" ++ newline ++ u "### Two")))%Z)
    by (vm_compute; reflexivity).
  assert (H2 : Headings.h2_count (_analyze_headings
                  (u "# Title" ++ newline ++ u "### One" ++ newline ++ u "### Two")) = 0%Z)
    by (vm_compute; reflexivity).
  split; [exact H3|]. split; [exact H2|].
  exact (proj2 h3_without_h2 latin1 _ H3 H2).
Defined.

(** * Further properties of the analysis *)

Lemma startswith_length (sub s : str) :
  startswith sub s = true -> (length sub <= length s)%nat.
Proof.
  revert s. induction sub as [|a sub IH]; intros [|b s]; cbn; try lia; try discriminate.
  intros H. apply andb_prop in H. destruct H as [_ H]. apply IH in H. lia.
Qed.

(** Skipping more characters first never finds more occurrences, and
    loses at most one. *)
Lemma count_from_skip (sub s : str) :
  forall a b : nat, (a <= b)%nat -> (b <= length sub - 1)%nat ->
    (count_from sub b s <= count_from sub a s <= S (count_from sub b s))%nat.
Proof.
  induction s as [|c s IH]; intros a b Hab Hb; [cbn; lia|].
  destruct b as [|b].
  - assert (a = 0)%nat by lia. subst a. lia.
  - destruct a as [|a].
    + cbn [count_from]. destruct (startswith sub (c :: s)).
      * assert (Hb' : (b <= length sub - 1)%nat) by lia.
        pose proof (IH b (length sub - 1)%nat Hb' (Nat.le_refl _)). lia.
      * apply IH; lia.
    + cbn [count_from]. apply IH; lia.
Qed.

Section Scan.
Context {U : Unicode}.

Lemma rmatch_escape (k : str) :
  forall (st : Re.mstate) (cont : Re.mstate -> option Re.mstate),
    Re.rmatch (Re.escape k) st cont =
    if startswith k (Re.after st)
    then cont {| Re.before := rev (firstn (length k) (Re.after st)) ++ Re.before st;
                 Re.after := skipn (length k) (Re.after st);
                 Re.grp := Re.grp st |}
    else None.
Proof.
  induction k as [|c k IH]; intros st cont.
  - cbn. destruct st; reflexivity.
  - cbn [Re.escape Re.rmatch]. unfold Re.step.
    destruct (Re.after st) as [|x rest] eqn:E; [reflexivity|].
    cbn [startswith]. destruct (N.eqb c x); [|reflexivity].
    cbn [andb]. rewrite IH. unfold Re.advance. cbn [Re.after Re.before Re.grp].
    destruct (startswith k rest); [|reflexivity].
    cbn [length firstn skipn rev]. rewrite <- app_assoc. reflexivity.
Qed.

(** A match of the keyword pattern is an occurrence of the keyword. *)
Lemma match_at_keyword (k bef aft : str) (m : Re.mobj) :
  Re.match_at (cat [Re.WordB; Re.escape k; Re.WordB]) bef aft = Some m ->
  startswith k aft = true /\
  (Re.m_end m - Re.m_start m = length k)%nat.
Proof.
  unfold Re.match_at, cat. cbn [fold_right Re.rmatch].
  destruct (Re.at_boundary _); [|discriminate].
  rewrite rmatch_escape. cbn [Re.after Re.before Re.grp].
  destruct (startswith k aft) eqn:Hk; [|discriminate].
  destruct (Re.at_boundary _); [|discriminate].
  intros H. injection H as <-. cbn [Re.m_end Re.m_start Re.before].
  split; [reflexivity|].
  apply startswith_length in Hk.
  rewrite length_app, length_rev, length_firstn. lia.
Qed.

Lemma scan_length (r : Re.regex) (aft : str) :
  forall (skip : nat) (bef : str),
    (length (Re.scan r skip bef aft) <= S (length aft))%nat.
Proof.
  induction aft as [|c aft IH]; intros skip bef.
  - destruct skip; cbn; [|lia]. destruct (Re.match_at r bef []); cbn; lia.
  - destruct skip; cbn [Re.scan].
    + destruct (Re.match_at r bef (c :: aft)); cbn [length].
      * specialize (IH (Re.m_end m - Re.m_start m - 1)%nat (c :: bef)). lia.
      * specialize (IH 0%nat (c :: bef)). lia.
    + specialize (IH skip (c :: bef)). cbn [length]. lia.
Qed.

Lemma scan_keyword_le (k aft : str) :
  k <> [] ->
  forall (skip : nat) (bef : str), (skip <= length k - 1)%nat ->
    (length (Re.scan (cat [Re.WordB; Re.escape k; Re.WordB]) skip bef aft)
     <= count_from k skip aft)%nat.
Proof.
  intros Hk. induction aft as [|c aft IH]; intros skip bef Hskip.
  - destruct skip; cbn [Re.scan count_from length]; [|lia].
    destruct (Re.match_at _ bef []) eqn:E; [|cbn; lia].
    apply match_at_keyword in E. destruct E as [E _].
    destruct k; [congruence|discriminate].
  - destruct skip; cbn [Re.scan count_from].
    + destruct (Re.match_at _ bef (c :: aft)) eqn:E.
      * apply match_at_keyword in E. destruct E as [E1 E2].
        rewrite E1, E2. cbn [length]. apply le_n_S. apply IH. lia.
      * specialize (IH 0%nat (c :: bef) ltac:(lia)).
        destruct (startswith k (c :: aft)); [|exact IH].
        pose proof (@count_from_skip k aft 0 (length k - 1) ltac:(lia) ltac:(lia)).
        lia.
    + apply IH. lia.
Qed.

(** The whole-word matches are never more than the occurrences that
    [str.count] finds. *)
Lemma findall_keyword_le (k s : str) :
  (length (Re.findall (cat [Re.WordB; Re.escape k; Re.WordB]) s) <= count s k)%nat.
Proof.
  unfold Re.findall, Re.finditer. rewrite length_map.
  destruct k as [|c k].
  - cbn [count]. apply scan_length.
  - cbn [count]. apply scan_keyword_le; [discriminate|lia].
Qed.

End Scan.
Lemma dict_set_new {V : Type} (d : dict V) (key : str) (v : V) :
  ~ In key (keys d) -> dict_set d key v = d ++ [(key, v)].
Proof.
  induction d as [|[k0 v0] d IH]; cbn; intros Hn; [reflexivity|].
  destruct (eqb k0 key) eqn:E.
  - apply eqb_eq in E. tauto.
  - rewrite IH by tauto. reflexivity.
Qed.

Lemma dict_set_same {V : Type} (d : dict V) (key : str) (v : V) :
  In key (keys d) -> (forall w, In (key, w) d -> w = v) -> dict_set d key v = d.
Proof.
  induction d as [|[k0 v0] d IH]; cbn; intros Hin Hv; [tauto|].
  destruct (eqb k0 key) eqn:E.
  - apply eqb_eq in E. subst k0. rewrite (Hv v0) by auto. reflexivity.
  - f_equal. apply IH.
    + destruct Hin as [Hin|Hin]; [|exact Hin].
      subst k0. rewrite eqb_refl in E. discriminate.
    + intros w Hw. apply Hv. auto.
Qed.

Section Loop.
Context {U : Unicode}.

(** The loop over [target_keywords], as a function of the entry that
    its body computes for a keyword. *)
Lemma keyword_loop_eq (content content_lower headings_text intro : str) :
  exists entry : str -> KeywordEntry.t,
    (forall k, keyword_entry content content_lower headings_text intro k =
               Ok (entry k)) /\
    forall (target_keywords : list str) (results : dict KeywordEntry.t)
           (recs : list str),
      for_each target_keywords
        (keyword_step content content_lower headings_text intro)
        (results, recs) =
      Ok (fold_left (fun d k => dict_set d k (entry k)) target_keywords results,
          recs ++ flat_map (fun k => KeywordEntry.recommendations (entry k))
                           target_keywords).
Proof.
  set (dummy := {| KeywordEntry.count := 0; KeywordEntry.density := 0;
                   KeywordEntry.in_headings := false;
                   KeywordEntry.in_intro := false; KeywordEntry.in_url := false;
                   KeywordEntry.assessment := Missing;
                   KeywordEntry.recommendations := [] |}).
  exists (fun k =>
    match keyword_entry content content_lower headings_text intro k with
    | Ok e => e
    | Raise _ => dummy
    end).
  assert (Hent : forall k,
    keyword_entry content content_lower headings_text intro k =
    Ok match keyword_entry content content_lower headings_text intro k with
       | Ok e => e
       | Raise _ => dummy
       end).
  { intros k.
    destruct (keyword_entry_ok content content_lower headings_text intro k)
      as (d & e & _ & He & _).
    rewrite He. reflexivity. }
  split; [exact Hent|].
  intros kws0. induction kws0 as [|kw kws IH]; intros results recs.
  - cbn. rewrite app_nil_r. reflexivity.
  - cbn [for_each fold_left flat_map]. unfold keyword_step at 1.
    rewrite (Hent kw) at 1. cbn [bind]. rewrite IH.
    rewrite <- app_assoc. reflexivity.
Qed.

Lemma fold_dict_set_distinct (entry : str -> KeywordEntry.t) (kws : list str) :
  forall d : dict KeywordEntry.t,
    NoDup (keys d ++ kws) ->
    fold_left (fun d k => dict_set d k (entry k)) kws d =
    d ++ List.map (fun k => (k, entry k)) kws.
Proof.
  induction kws as [|k kws IH]; intros d Hnd; cbn.
  - rewrite app_nil_r. reflexivity.
  - assert (Hk : ~ In k (keys d)).
    { intros Hin. apply NoDup_remove_2 in Hnd. apply Hnd.
      apply in_or_app. left. exact Hin. }
    rewrite dict_set_new by exact Hk. rewrite IH.
    + rewrite <- app_assoc. reflexivity.
    + unfold keys in *. rewrite map_app. cbn. rewrite <- app_assoc. exact Hnd.
Qed.

End Loop.

Section Keywords.
Context {U : Unicode}.

(** [_check_keyword_usage] as a function of the entries of the
    keywords. *)
Lemma _check_keyword_usage_eq (content : str) :
  exists entry : str -> KeywordEntry.t,
    (forall k, keyword_entry content (lower content) (headings_text_of content)
                 (intro_of content) k = Ok (entry k)) /\
    forall target_keywords : list str,
      exists ka,
        _check_keyword_usage content target_keywords = Ok ka /\
        Keywords.keywords ka =
          fold_left (fun d k => dict_set d k (entry k)) target_keywords [] /\
        Keywords.recommendations ka =
          flat_map (fun k => KeywordEntry.recommendations (entry k))
                   target_keywords /\
        Keywords.overall_assessment ka =
          if (count_assessment Missing (Keywords.keywords ka) =?
              len target_keywords)%Z
          then u "No target keywords found in content."
          else if (count_assessment Optimal (Keywords.keywords ka) =?
                   len target_keywords)%Z
          then u "All keywords are used optimally."
          else of_Z (count_assessment Optimal (Keywords.keywords ka)) ++
               u " of " ++ of_Z (len target_keywords) ++
               u " keywords used optimally.".
Proof.
  destruct (keyword_loop_eq content (lower content) (headings_text_of content)
              (intro_of content)) as (entry & Hent & Hloop).
  exists entry. split; [exact Hent|]. intros target_keywords.
  unfold _check_keyword_usage. cbv zeta. rewrite Hloop. cbn [bind app].
  eexists. split; [reflexivity|]. repeat split; reflexivity.
Qed.

(** X1. The per-keyword dictionary keeps the input order: for target
    keywords that are all different its keys are the list itself, and
    the keyword recommendations are those of the entries, keyword by
    keyword in that order. *)
Theorem distinct_keywords_in_order (content : str) (target_keywords : list str) :
  NoDup target_keywords ->
  exists ka,
    _check_keyword_usage content target_keywords = Ok ka /\
    keys (Keywords.keywords ka) = target_keywords /\
    Keywords.recommendations ka =
      flat_map (fun kv => KeywordEntry.recommendations (snd kv))
               (Keywords.keywords ka).
Proof.
  intros Hnd.
  destruct (_check_keyword_usage_eq content) as (entry & _ & H).
  destruct (H target_keywords) as (ka & Hka & Hkeys & Hrecs & _).
  exists ka. split; [exact Hka|].
  rewrite Hrecs, Hkeys, fold_dict_set_distinct by exact Hnd.
  cbn [app]. unfold keys. rewrite map_map. cbn [fst]. rewrite map_id.
  split; [reflexivity|].
  rewrite flat_map_concat_map, (flat_map_concat_map _ (List.map _ _)), map_map.
  reflexivity.
Qed.

(** X2. Listing a keyword once more leaves the per-keyword dictionary
    as it is and appends the recommendations of its entry once more
    to the keyword recommendations. *)
Theorem repeated_keyword_repeats_recommendations (content : str)
    (target_keywords : list str) (keyword : str) :
  In keyword target_keywords ->
  exists ka ka' e,
    _check_keyword_usage content target_keywords = Ok ka /\
    _check_keyword_usage content (target_keywords ++ [keyword]) = Ok ka' /\
    In (keyword, e) (Keywords.keywords ka) /\
    Keywords.keywords ka' = Keywords.keywords ka /\
    Keywords.recommendations ka' =
      Keywords.recommendations ka ++ KeywordEntry.recommendations e.
Proof.
  intros Hin.
  destruct (_check_keyword_usage_eq content) as (entry & Hent & H).
  destruct (H target_keywords) as (ka & Hka & Hkeys & Hrecs & _).
  destruct (H (target_keywords ++ [keyword])) as (ka' & Hka' & Hkeys' & Hrecs' & _).
  destruct (_check_keyword_usage_ok content target_keywords)
    as (ka0 & Hka0 & _ & Hdom & Hval).
  assert (ka0 = ka) by congruence. subst ka0.
  assert (Hk : In keyword (keys (Keywords.keywords ka))) by (apply Hdom; exact Hin).
  assert (Hv : forall w, In (keyword, w) (Keywords.keywords ka) -> w = entry keyword).
  { intros w Hw. apply Hval in Hw. rewrite Hent in Hw. congruence. }
  exists ka, ka', (entry keyword). split; [exact Hka|]. split; [exact Hka'|].
  split.
  - unfold keys in Hk. apply in_map_iff in Hk. destruct Hk as ([k w] & Hkw & Hw).
    cbn in Hkw. subst k. rewrite <- (Hv w Hw). exact Hw.
  - split.
    + rewrite Hkeys', fold_left_app. cbn [fold_left]. rewrite <- Hkeys.
      apply dict_set_same; assumption.
    + rewrite Hrecs', Hrecs, flat_map_app. cbn [flat_map]. rewrite app_nil_r.
      reflexivity.
Qed.

End Keywords.

Section Missing.
Context {U : Unicode}.

Lemma mul_zero_quotient (w : Z) :
  Float.mul (Float.fl (inject_Z 0 / inject_Z w)) 100 = 0%Q.
Proof.
  assert (E : Float.fl (inject_Z 0 / inject_Z w) = 0%Q).
  { unfold Float.fl. cbn [Qnum Qdiv Qmult inject_Z]. rewrite Z.mul_0_l. reflexivity. }
  rewrite E. reflexivity.
Qed.

Lemma density_without_matches (content keyword : str) :
  whole_word_matches content keyword = 0%Z ->
  _calculate_keyword_density content keyword = Ok 0%Q.
Proof.
  intros H. rewrite _calculate_keyword_density_eq, H, mul_zero_quotient.
  destruct (len (split content) =? 0)%Z; reflexivity.
Qed.

Lemma whole_word_matches_le (content keyword : str) :
  (0 <= whole_word_matches content keyword <=
   Z.of_nat (count (lower content) (lower keyword)))%Z.
Proof.
  unfold whole_word_matches, keyword_pattern, len.
  pose proof (findall_keyword_le (lower keyword) (lower content)). lia.
Qed.

(** The entry of a keyword that does not occur in the content. *)
Lemma keyword_entry_absent (content headings_text intro keyword : str) :
  count (lower content) (lower keyword) = 0%nat ->
  keyword_entry content (lower content) headings_text intro keyword =
  Ok {| KeywordEntry.count := 0;
        KeywordEntry.density := 0;
        KeywordEntry.in_headings := contains (lower keyword) headings_text;
        KeywordEntry.in_intro := contains (lower keyword) intro;
        KeywordEntry.in_url := false;
        KeywordEntry.assessment := Missing;
        KeywordEntry.recommendations :=
          [u "Add the keyword '" ++ keyword ++ u "' to your content."] |}.
Proof.
  intros Habs.
  assert (Hww : whole_word_matches content keyword = 0%Z).
  { pose proof (whole_word_matches_le content keyword). lia. }
  unfold keyword_entry. rewrite Habs, (density_without_matches _ _ Hww).
  cbn [bind Z.of_nat assess Z.eqb fst snd]. cbn [Z.ltb Z.compare andb].
  rewrite !andb_false_r. reflexivity.
Qed.

(** X3. The whole-word matches that the density is computed from are
    never more than the occurrences that the entry reports as its
    count; so an entry with count 0 is labelled Missing, has density
    0.0 and carries the one recommendation to add the keyword. *)
Theorem matches_within_count (content : str) (target_keywords : list str) :
  exists ka,
    _check_keyword_usage content target_keywords = Ok ka /\
    forall keyword e, In (keyword, e) (Keywords.keywords ka) ->
      (0 <= whole_word_matches content keyword <= KeywordEntry.count e)%Z /\
      (KeywordEntry.count e = 0%Z ->
       _calculate_keyword_density content keyword = Ok 0%Q /\
       KeywordEntry.density e = 0%Q /\
       KeywordEntry.assessment e = Missing /\
       KeywordEntry.recommendations e =
         [u "Add the keyword '" ++ keyword ++ u "' to your content."]).
Proof.
  destruct (_check_keyword_usage_ok content target_keywords)
    as (ka & Hka & _ & _ & Hent).
  exists ka. split; [exact Hka|]. intros keyword e Hin.
  specialize (Hent _ _ Hin).
  destruct (keyword_entry_ok content (lower content) (headings_text_of content)
              (intro_of content) keyword) as (d & e' & _ & He' & Hcount & _).
  assert (e' = e) by congruence. subst e'.
  rewrite Hcount. split; [apply whole_word_matches_le|].
  intros H0. assert (Habs : count (lower content) (lower keyword) = 0%nat) by lia.
  rewrite (keyword_entry_absent content (headings_text_of content)
             (intro_of content) keyword Habs) in Hent.
  injection Hent as <-. cbn.
  split; [|auto].
  apply density_without_matches.
  pose proof (whole_word_matches_le content keyword). lia.
Qed.

End Missing.

Section AllMissing.
Context {U : Unicode}.

Lemma count_assessment_all (a : usage) (d : dict KeywordEntry.t) :
  (forall kv, In kv d -> KeywordEntry.assessment (snd kv) = a) ->
  count_assessment a d = len d.
Proof.
  intros H. unfold count_assessment, len. f_equal.
  induction d as [|kv d IH]; [reflexivity|]. cbn [filter].
  rewrite (H kv (or_introl eq_refl)).
  replace (usage_eqb a a) with true by (destruct a; reflexivity).
  cbn [length]. f_equal. apply IH. intros kv' Hin. apply H. right. exact Hin.
Qed.

Lemma keyword_score_zero (n : Z) :
  Float.to_int (Float.mul (Float.fl (inject_Z 0 / inject_Z n)) 25) = 0%Z.
Proof.
  assert (E : Float.fl (inject_Z 0 / inject_Z n) = 0%Q).
  { unfold Float.fl. cbn [Qnum Qdiv Qmult inject_Z]. rewrite Z.mul_0_l. reflexivity. }
  rewrite E. reflexivity.
Qed.

(** X4. When the target keywords are all different and none of them
    occurs in the content, the summary is "No target keywords found in
    content.", the keyword recommendations are one "Add the keyword"
    per keyword in input order, and the keyword component of the score
    is 0. *)
Theorem no_keyword_found (content : str) (target_keywords : list str)
    (min_word_count : Z) :
  target_keywords <> [] -> NoDup target_keywords ->
  (forall k, In k target_keywords ->
     count (lower content) (lower k) = 0%nat) ->
  exists a readability_score heading_score completeness_score,
    analyse content target_keywords (Some min_word_count) = Ok a /\
    Keywords.overall_assessment (Analysis.keyword_analysis a) =
      u "No target keywords found in content." /\
    Keywords.recommendations (Analysis.keyword_analysis a) =
      List.map (fun k => u "Add the keyword '" ++ k ++ u "' to your content.")
               target_keywords /\
    Analysis.score_components a =
      [readability_score; heading_score; 0%Z; completeness_score].
Proof.
  intros Hkw Hnd Habs.
  destruct (analyse_ok content min_word_count Hkw) as (r & ka & c & _ & Hka & _ & Ha).
  cbv zeta in Ha.
  destruct (_check_keyword_usage_eq content) as (entry & Hent & H).
  destruct (H target_keywords) as (ka' & Hka' & Hkeys & Hrecs & Hsum).
  assert (ka' = ka) by congruence. subst ka'.
  rewrite fold_dict_set_distinct in Hkeys by exact Hnd. cbn [app] in Hkeys.
  assert (Hentry : forall k, In k target_keywords ->
            KeywordEntry.assessment (entry k) = Missing /\
            KeywordEntry.recommendations (entry k) =
              [u "Add the keyword '" ++ k ++ u "' to your content."]).
  { intros k Hin. specialize (Hent k).
    rewrite (keyword_entry_absent content (headings_text_of content)
               (intro_of content) k (Habs k Hin)) in Hent.
    injection Hent as <-. split; reflexivity. }
  assert (Hmiss : count_assessment Missing (Keywords.keywords ka) = len target_keywords).
  { rewrite count_assessment_all.
    - rewrite Hkeys. unfold len. rewrite length_map. reflexivity.
    - intros kv Hin. rewrite Hkeys in Hin. apply in_map_iff in Hin.
      destruct Hin as (k & <- & Hk). cbn [snd]. apply Hentry. exact Hk. }
  assert (Hopt : count_assessment Optimal (Keywords.keywords ka) = 0%Z).
  { unfold count_assessment. rewrite Hkeys.
    replace (filter _ _) with (@nil (str * KeywordEntry.t)); [reflexivity|].
    symmetry. clear - Hentry. induction target_keywords as [|k kws IH];
      [reflexivity|].
    cbn [List.map filter snd].
    rewrite (proj1 (Hentry k (or_introl eq_refl))). cbn [usage_eqb].
    apply IH. intros k' Hin. apply Hentry. right. exact Hin. }
  do 4 eexists. split; [exact Ha|].
  cbn [Analysis.keyword_analysis Analysis.score_components].
  split; [|split].
  - rewrite Hsum, Hmiss, Z.eqb_refl. reflexivity.
  - rewrite Hrecs. clear - Hentry.
    induction target_keywords as [|k kws IH]; [reflexivity|].
    cbn [flat_map List.map].
    rewrite (proj2 (Hentry k (or_introl eq_refl))). cbn [app]. f_equal.
    apply IH. intros k' Hin. apply Hentry. right. exact Hin.
  - rewrite Hopt, keyword_score_zero. reflexivity.
Qed.

End AllMissing.

Section FullKeywordScore.
Context {U : Unicode}.

Lemma round53_self (a : Z) : (0 < a)%Z -> Float.round53 a a = 1%Q.
Proof.
  intros Ha. unfold Float.round53.
  assert (Hb : Float.binade a a = 0%Z).
  { unfold Float.binade, Float.scale. rewrite Z.sub_diag. cbn [Z.opp Z.max Z.compare].
    rewrite Z.leb_refl. reflexivity. }
  rewrite Hb. unfold Float.scale. cbn [Z.sub Z.opp Z.max Z.compare Z.pos_sub].
  change (2 ^ 0)%Z with 1%Z. rewrite Z.mul_1_r.
  assert (Hr : Float.round_half_even (a * 2 ^ 52) a = (2 ^ 52)%Z).
  { unfold Float.round_half_even. cbv zeta.
    assert (Hq : (a * 2 ^ 52 / a = 2 ^ 52)%Z)
      by (rewrite Z.mul_comm; apply Z.div_mul; lia).
    assert (Hm : ((a * 2 ^ 52) mod a = 0)%Z)
      by (rewrite Z.mul_comm; apply Z.mod_mul; lia).
    rewrite Hq, Hm.
    destruct (Z.ltb_spec (2 * 0) a); [reflexivity|lia]. }
  change (52 - 0)%Z with 52%Z. change (Z.max 0 52) with 52%Z.
  rewrite Hr. reflexivity.
Qed.

Lemma fl_quotient_self (n : Z) : (0 < n)%Z ->
  Float.fl (inject_Z n / inject_Z n) = 1%Q.
Proof.
  intros Hn. destruct n as [|p|p]; try lia.
  unfold Float.fl. cbn [Qnum Qden Qdiv Qmult Qinv inject_Z].
  cbn [Z.mul]. rewrite Pos.mul_1_r, Pos.mul_1_l.
  apply round53_self. lia.
Qed.

Lemma filter_all {A : Type} (f : A -> bool) (l : list A) :
  length (filter f l) = length l -> forall x, In x l -> f x = true.
Proof.
  induction l as [|y l IH]; intros Hlen x Hin; [destruct Hin|].
  cbn [filter] in Hlen. pose proof (filter_length_le f l) as Hle.
  destruct (f y) eqn:Ey; cbn [length] in Hlen; [|lia].
  destruct Hin as [<-|Hin]; [exact Ey|]. apply IH; [lia|exact Hin].
Qed.

Lemma usage_eqb_eq (a b : usage) : usage_eqb a b = true -> a = b.
Proof. destruct a, b; cbn; congruence. Qed.

(** X5. For a list of at most [2^50] target keywords the keyword
    component of the score is 25 exactly when every entry of the
    per-keyword dictionary is Optimal and there are as many entries as
    target keywords; then no keyword is listed twice and the summary
    is "All keywords are used optimally.". *)
Theorem full_keyword_score (content : str) (target_keywords : list str)
    (min_word_count : Z) :
  target_keywords <> [] -> (len target_keywords <= 2 ^ 50)%Z ->
  exists a readability_score heading_score keyword_score completeness_score,
    analyse content target_keywords (Some min_word_count) = Ok a /\
    Analysis.score_components a =
      [readability_score; heading_score; keyword_score; completeness_score] /\
    (keyword_score = 25%Z <->
     count_assessment Optimal (Keywords.keywords (Analysis.keyword_analysis a)) =
     len target_keywords) /\
    (keyword_score = 25%Z ->
     NoDup target_keywords /\
     (forall k e, In (k, e) (Keywords.keywords (Analysis.keyword_analysis a)) ->
        KeywordEntry.assessment e = Optimal) /\
     Keywords.overall_assessment (Analysis.keyword_analysis a) =
       u "All keywords are used optimally.").
Proof.
  intros Hkw Hlen.
  destruct (analyse_ok content min_word_count Hkw) as (r & ka & c & _ & Hka & _ & Ha).
  cbv zeta in Ha.
  destruct (optimal_count_le _ _ Hka) as [Hopt Hdup].
  assert (Hpos : (0 < len target_keywords)%Z).
  { unfold len. destruct target_keywords; [congruence|]. cbn [length]. lia. }
  set (opt := count_assessment Optimal (Keywords.keywords ka)) in *.
  assert (Hiff : Float.to_int (Float.mul (Float.fl (inject_Z opt /
                    inject_Z (len target_keywords))) 25) = 25%Z <->
                 opt = len target_keywords).
  { split.
    - intros H25. destruct (Z.eq_dec opt (len target_keywords)) as [E|E]; [exact E|].
      assert (Hlt : (0 <= opt < len target_keywords)%Z) by lia.
      pose proof (keyword_score_lt Hlt Hlen). lia.
    - intros ->. rewrite fl_quotient_self by exact Hpos. reflexivity. }
  do 5 eexists. split; [exact Ha|].
  cbn [Analysis.score_components Analysis.keyword_analysis].
  split; [reflexivity|]. split; [exact Hiff|].
  intros H25. apply Hiff in H25.
  destruct (_check_keyword_usage_ok content target_keywords)
    as (ka0 & Hka0 & Hnd & Hdom & _).
  assert (ka0 = ka) by congruence. subst ka0.
  pose proof (count_assessment_le Optimal (Keywords.keywords ka)) as Hcl.
  fold opt in Hcl.
  destruct (@keys_length _ _ Hnd Hdom) as [Hkl _].
  unfold keys in Hkl. rewrite length_map in Hkl.
  assert (Hsame : length (Keywords.keywords ka) = length target_keywords)
    by (unfold len in *; lia).
  assert (Hall : forall k e, In (k, e) (Keywords.keywords ka) ->
                   KeywordEntry.assessment e = Optimal).
  { intros k e Hin. apply usage_eqb_eq.
    apply (filter_all
      (fun kv : str * KeywordEntry.t =>
         usage_eqb (KeywordEntry.assessment (snd kv)) Optimal)
      (Keywords.keywords ka)) with (x := (k, e)); [|exact Hin].
    unfold opt, count_assessment, len in *. lia. }
  split; [|split; [exact Hall|]].
  - apply NoDup_incl_NoDup with (keys (Keywords.keywords ka)).
    + exact Hnd.
    + unfold keys. rewrite length_map. lia.
    + intros k Hk. apply Hdom. exact Hk.
  - destruct (_check_keyword_usage_eq content) as (entry & _ & H).
    destruct (H target_keywords) as (ka' & Hka' & _ & _ & Hsum).
    assert (ka' = ka) by congruence. subst ka'.
    rewrite Hsum. fold opt. rewrite H25, (Z.eqb_refl (len target_keywords)).
    assert (Hmiss : count_assessment Missing (Keywords.keywords ka) = 0%Z).
    { unfold count_assessment.
      replace (filter _ _) with (@nil (str * KeywordEntry.t)); [reflexivity|].
      symmetry. clear - Hall. induction (Keywords.keywords ka) as [|[k e] d IH];
        [reflexivity|].
      cbn [filter snd]. rewrite (Hall k e (or_introl eq_refl)). cbn [usage_eqb].
      apply IH. intros k' e' Hin. apply (Hall k' e'). right. exact Hin. }
    rewrite Hmiss. destruct (Z.eqb_spec 0 (len target_keywords)); [lia|reflexivity].
Qed.

End FullKeywordScore.

Section Scores.
Context {U : Unicode}.

(** X6. The total score is at least 5, whatever the content: the
    readability component is never 0. Content whose readability is
    Difficult or Invalid scores at most 80, and Moderate readability
    at most 90. *)
Theorem total_score_floor (content : str) (target_keywords : list str)
    (min_word_count : Z) :
  target_keywords <> [] ->
  exists a,
    analyse content target_keywords (Some min_word_count) = Ok a /\
    (5 <= Analysis.total_score a)%Z /\
    (Readability.score (Analysis.readability a) <> Good ->
     (Analysis.total_score a <= 90)%Z) /\
    (Readability.score (Analysis.readability a) = Difficult \/
     Readability.score (Analysis.readability a) = Invalid ->
     (Analysis.total_score a <= 80)%Z).
Proof.
  intros Hkw.
  destruct (analyse_ok content min_word_count Hkw) as (r & ka & c & _ & Hka & _ & Ha).
  cbv zeta in Ha. eexists. split; [exact Ha|].
  cbn [Analysis.total_score Analysis.readability].
  destruct (optimal_count_le _ _ Hka) as [Hopt _].
  assert (Hlen : (0 < len target_keywords)%Z).
  { unfold len. destruct target_keywords; [congruence|]. simpl length. lia. }
  pose proof (keyword_score_range Hopt Hlen) as Hks.
  set (h := _analyze_headings content) in *.
  pose proof (@points_range (Headings.h1_count h =? 1)%Z 10).
  pose proof (@points_range (0 <? Headings.h2_count h)%Z 10).
  pose proof (@points_range (0 <? Headings.h3_count h)%Z 5).
  pose proof (@points_range (min_word_count <=? Completeness.word_count c)%Z 10).
  pose proof (@points_range (Completeness.has_intro c) 5).
  pose proof (@points_range (Completeness.has_conclusion c) 5).
  pose proof (@points_range (Completeness.has_bullet_points c) 3).
  pose proof (@points_range (Completeness.has_cta c) 2).
  destruct (Readability.score r); repeat split; intros; try lia;
    try congruence; try (intuition congruence).
Qed.

(** X7. Asking for fewer words never lowers the score: for
    [m1 <= m2] the total with [min_word_count = m1] is the total with
    [m2], or 10 more. *)
Theorem lower_threshold_never_lowers_score (content : str)
    (target_keywords : list str) (m1 m2 : Z) :
  target_keywords <> [] -> (m1 <= m2)%Z ->
  exists a1 a2,
    analyse content target_keywords (Some m1) = Ok a1 /\
    analyse content target_keywords (Some m2) = Ok a2 /\
    (Analysis.total_score a1 = Analysis.total_score a2 \/
     Analysis.total_score a1 = (Analysis.total_score a2 + 10)%Z).
Proof.
  intros Hkw Hm.
  destruct (analyse_ok content m1 Hkw) as (r1 & ka1 & c1 & Hr1 & Hka1 & Hc1 & Ha1).
  destruct (analyse_ok content m2 Hkw) as (r2 & ka2 & c2 & Hr2 & Hka2 & Hc2 & Ha2).
  destruct (_analyze_content_completeness_ok content) as (rest & note & Hc).
  destruct (Hc m1) as (c1' & Hc1' & Hw1 & Hi1 & Hn1 & Hb1 & Ht1 & _).
  destruct (Hc m2) as (c2' & Hc2' & Hw2 & Hi2 & Hn2 & Hb2 & Ht2 & _).
  assert (r2 = r1) by congruence. assert (ka2 = ka1) by congruence.
  assert (c1' = c1) by congruence. assert (c2' = c2) by congruence.
  subst r2 ka2 c1' c2'.
  cbv zeta in Ha1, Ha2. do 2 eexists. split; [exact Ha1|]. split; [exact Ha2|].
  cbn [Analysis.total_score].
  rewrite Hw1, Hw2, Hi1, Hi2, Hn1, Hn2, Hb1, Hb2, Ht1, Ht2.
  assert (Hp : points (m1 <=? len (split content))%Z 10 =
               points (m2 <=? len (split content))%Z 10 \/
               points (m1 <=? len (split content))%Z 10 =
               (points (m2 <=? len (split content))%Z 10 + 10)%Z).
  { unfold points.
    destruct (Z.leb_spec m1 (len (split content)));
      destruct (Z.leb_spec m2 (len (split content))); lia. }
  lia.
Qed.

End Scores.

Section CompletenessFacts.
Context {U : Unicode}.

Lemma append_if_nil (c : bool) (r : str) (l : list str) :
  append_if c r l = [] <-> c = false /\ l = [].
Proof.
  unfold append_if. destruct c.
  - split; [intros H; apply app_eq_nil in H; destruct H; discriminate
           |intros [H _]; discriminate].
  - tauto.
Qed.

Lemma append_if_length (c : bool) (r : str) (l : list str) :
  (length (append_if c r l) <= S (length l))%nat.
Proof.
  unfold append_if. destruct c; [rewrite length_app; cbn; lia|lia].
Qed.

(** The recommendations of the completeness sub-assessment, by its
    other fields. *)
Lemma completeness_recommendations (content : str) (min_word_count : Z) :
  exists c,
    _analyze_content_completeness content (Some min_word_count) = Ok c /\
    Completeness.recommendations c =
      append_if (negb (Completeness.has_cta c))
        (u "Add a clear call-to-action (CTA) to guide readers on next steps.")
      (append_if (negb (Completeness.has_bullet_points c) &&
                  (500 <? Completeness.word_count c)%Z)
        (u "Add bullet points or lists to break up long text sections.")
      (append_if (negb (Completeness.has_conclusion c))
        (u "Add a proper conclusion section (at least 30 words).")
      (append_if (negb (Completeness.has_intro c))
        (u "Add a proper introduction section (at least 30 words).")
      (append_if (Completeness.word_count c <? min_word_count)%Z
        (u "Increase content length to at least " ++ of_Z min_word_count ++
         u " words (currently " ++ of_Z (Completeness.word_count c) ++ u ").")
        [])))) /\
    Completeness.assessment c =
      match Completeness.recommendations c with
      | [] => u "Content structure assessment:" ++
              u " Content is well-structured and complete."
      | _ => u "Content structure assessment:" ++
             u " Content needs improvement (" ++
             of_Z (len (Completeness.recommendations c)) ++ u " issues found)."
      end.
Proof.
  unfold _analyze_content_completeness. cbn [int_lt bind format_optional_int].
  cbv zeta. eexists. split; [reflexivity|].
  cbn [Completeness.word_count Completeness.has_intro Completeness.has_conclusion
       Completeness.has_bullet_points Completeness.has_cta
       Completeness.recommendations Completeness.assessment].
  split; reflexivity.
Qed.

(** X8. The completeness sub-assessment has no recommendation exactly
    when the content has the asked number of words, an introduction,
    a conclusion, a call to action and, if it has more than 500 words,
    a bullet character; exactly then its assessment calls the content
    well-structured and complete. A completeness component of 25
    leaves no recommendation, and no recommendation means a component
    of at least 22. There are never more than five. *)
Theorem complete_content (content : str) (target_keywords : list str)
    (min_word_count : Z) :
  target_keywords <> [] ->
  exists a readability_score heading_score keyword_score completeness_score,
    analyse content target_keywords (Some min_word_count) = Ok a /\
    Analysis.score_components a =
      [readability_score; heading_score; keyword_score; completeness_score] /\
    let c := Analysis.completeness a in
    (Completeness.recommendations c = [] <->
     (min_word_count <= Completeness.word_count c)%Z /\
     Completeness.has_intro c = true /\
     Completeness.has_conclusion c = true /\
     Completeness.has_cta c = true /\
     (Completeness.has_bullet_points c = true \/
      (Completeness.word_count c <= 500)%Z)) /\
    (Completeness.recommendations c = [] <->
     Completeness.assessment c =
       u "Content structure assessment: Content is well-structured and complete.") /\
    (completeness_score = 25%Z -> Completeness.recommendations c = []) /\
    (Completeness.recommendations c = [] -> (22 <= completeness_score)%Z) /\
    (length (Completeness.recommendations c) <= 5)%nat.
Proof.
  intros Hkw.
  destruct (analyse_ok content min_word_count Hkw) as (r & ka & c & _ & _ & Hc & Ha).
  cbv zeta in Ha. do 5 eexists. split; [exact Ha|].
  cbn [Analysis.score_components Analysis.completeness].
  split; [reflexivity|].
  destruct (completeness_recommendations content min_word_count)
    as (c' & Hc' & Hrecs & Hass).
  assert (c' = c) by congruence. subst c'. clear Hc' Hc Ha.
  destruct c as [wc hi hc hb ht assessment recommendations].
  cbn [Completeness.word_count Completeness.has_intro Completeness.has_conclusion
       Completeness.has_bullet_points Completeness.has_cta
       Completeness.recommendations Completeness.assessment] in *.
  assert (Hnil : recommendations = [] <->
            (min_word_count <= wc)%Z /\ hi = true /\ hc = true /\ ht = true /\
            (hb = true \/ (wc <= 500)%Z)).
  { rewrite Hrecs, !append_if_nil.
    rewrite !negb_false_iff, andb_false_iff, negb_false_iff, Z.ltb_ge, Z.ltb_ge.
    tauto. }
  split; [exact Hnil|]. split; [|split; [|split]].
  - rewrite Hass. clear. split.
    + intros ->. reflexivity.
    + intros H. destruct recommendations as [|x l]; [reflexivity|].
      exfalso. apply (f_equal (fun s => nth 38 s 0%N)) in H.
      vm_compute in H. discriminate H.
  - intros H25. apply Hnil. unfold points in H25. clear - H25.
    destruct (Z.leb_spec min_word_count wc), hi, hc, hb, ht;
      try (exfalso; lia); repeat split; auto.
  - intros H. apply Hnil in H. destruct H as (H1 & -> & -> & -> & _).
    unfold points. destruct (Z.leb_spec min_word_count wc); [|lia].
    destruct hb; lia.
  - rewrite Hrecs.
    repeat (etransitivity; [apply append_if_length|apply le_n_S]).
    cbn. lia.
Qed.

End CompletenessFacts.

Section HeadingFacts.
Context {U : Unicode}.

Lemma when_nil (c : bool) (rec note : str) (st : list str * str) :
  fst (when c rec note st) = [] <-> c = false /\ fst st = [].
Proof.
  unfold when. destruct c; cbn [fst].
  - split; [intros H; apply app_eq_nil in H; destruct H; discriminate
           |intros [H _]; discriminate].
  - tauto.
Qed.

Lemma when_note (c : bool) (rec note base : str) (st : list str * str) :
  (exists x, snd st = base ++ x) -> exists x, snd (when c rec note st) = base ++ x.
Proof.
  intros [x Hx]. unfold when. destruct c; cbn [snd]; [|exists x; exact Hx].
  exists (x ++ note). rewrite Hx, app_assoc. reflexivity.
Qed.

(** X9. The heading sub-assessment always carries a recommendation.
    With exactly one H1, one to seven H2 and some H3 it is the single
    recommendation to keep the hierarchy, under the assessment
    "Heading structure looks good."; and that assessment is only given
    to content with exactly one H1, at most seven H2, no H3 without an
    H2 and no H4 without an H3. *)
Theorem heading_verdict (content : str) :
  let h := _analyze_headings content in
  Headings.recommendations h <> [] /\
  (Headings.h1_count h = 1%Z ->
   (0 < Headings.h2_count h <= 7)%Z -> (0 < Headings.h3_count h)%Z ->
   Headings.recommendations h =
     [u "Maintain consistent heading hierarchy for future content."] /\
   Headings.assessment h = u "Heading structure looks good.") /\
  (Headings.assessment h = u "Heading structure looks good." ->
   Headings.h1_count h = 1%Z /\ (Headings.h2_count h <= 7)%Z /\
   ((0 < Headings.h3_count h)%Z -> (0 < Headings.h2_count h)%Z) /\
   ((0 < Headings.h4_count h)%Z -> (0 < Headings.h3_count h)%Z)).
Proof.
  cbv zeta. unfold _analyze_headings.
  cbn [Headings.h1_count Headings.h2_count Headings.h3_count Headings.h4_count
       Headings.recommendations Headings.assessment].
  set (h1 := len (Re.findall h1_pattern content)).
  set (h2 := len (Re.findall h2_pattern content)).
  set (h3 := len (Re.findall h3_pattern content)).
  set (h4 := len (Re.findall h4_pattern content)).
  assert (N1 : (0 <= h1)%Z) by (unfold h1, len; lia).
  assert (N2 : (0 <= h2)%Z) by (unfold h2, len; lia).
  assert (N3 : (0 <= h3)%Z) by (unfold h3, len; lia).
  assert (N4 : (0 <= h4)%Z) by (unfold h4, len; lia).
  match goal with
  | |- fst (match fst ?s with _ => _ end) <> [] /\ _ => set (st := s)
  end.
  assert (Hnil : fst st = [] <->
            h1 = 1%Z /\
            ((h2 =? 0)%Z && (300 <? len content)%Z = false) /\
            ((0 <? h2)%Z && (h3 =? 0)%Z && (1000 <? len content)%Z = false) /\
            (h2 <= 7)%Z /\
            ((0 <? h3)%Z && (h2 =? 0)%Z = false) /\
            ((0 <? h4)%Z && (h3 =? 0)%Z = false)).
  { unfold st. rewrite !when_nil.
    destruct (Z.eqb_spec h1 0) as [E|E].
    - rewrite when_nil. split; [intros (_ & _ & _ & _ & _ & H & _); discriminate
                               |intros (H & _); lia].
    - rewrite when_nil. cbn [fst]. rewrite Z.ltb_ge, Z.ltb_ge.
      split; [intros (H6 & H5 & H4 & H3 & H2 & H1 & _); repeat split; auto; lia
             |intros (H1 & H2 & H3 & H4 & H5 & H6); repeat split; auto; lia]. }
  assert (Hnote : exists x, snd st = u "Heading structure analysis:" ++ x).
  { unfold st. repeat apply when_note.
    destruct (h1 =? 0)%Z; apply when_note; exists []; reflexivity. }
  split; [|split].
  - destruct (fst st) eqn:E; [discriminate|]. rewrite E. discriminate.
  - intros E1 [E2 E2'] E3.
    assert (Hst : fst st = []).
    { apply Hnil. split; [exact E1|].
      destruct (Z.eqb_spec h2 0); [lia|]. destruct (Z.eqb_spec h3 0); [lia|].
      rewrite !andb_false_r. cbn [andb]. repeat split; auto. }
    rewrite Hst. split; reflexivity.
  - intros Hgood. assert (Hst : fst st = []).
    { destruct (fst st) eqn:E; [reflexivity|]. exfalso.
      destruct Hnote as [x Hx]. rewrite Hx in Hgood.
      apply (f_equal (fun s => nth 18 s 0%N)) in Hgood.
      vm_compute in Hgood. discriminate Hgood. }
    apply Hnil in Hst. destruct Hst as (E1 & _ & _ & E7 & E32 & E43).
    split; [exact E1|]. split; [exact E7|].
    apply andb_false_iff in E32, E43. rewrite Z.ltb_ge, Z.eqb_neq in E32, E43.
    split; intros; lia.
Qed.

End HeadingFacts.

Section Blank.
Context {U : Unicode}.

Lemma split_blank (s : str) : forallb isspace s = true -> split s = [].
Proof.
  unfold split. induction s as [|c s IH]; cbn; [reflexivity|].
  intros H. apply andb_prop in H. destruct H as [Hc Hs]. rewrite Hc. auto.
Qed.

Lemma lstrip_blank (s : str) : forallb isspace s = true -> lstrip s = [].
Proof.
  induction s as [|c s IH]; cbn; [reflexivity|].
  intros H. apply andb_prop in H. destruct H as [Hc Hs]. rewrite Hc. auto.
Qed.

Lemma strip_blank (s : str) : forallb isspace s = true -> strip s = [].
Proof. intros H. unfold strip. rewrite (lstrip_blank _ H). reflexivity. Qed.

Lemma split_from_blank (sep s : str) :
  forall (skip : nat) (cur : str),
    forallb isspace cur = true -> forallb isspace s = true ->
    Forall (fun p => forallb isspace p = true) (split_from sep skip cur s).
Proof.
  induction s as [|c s IH]; intros skip cur Hcur Hs.
  - cbn. constructor; [|constructor].
    rewrite forallb_forall in *. intros x Hx. apply Hcur. apply in_rev. exact Hx.
  - cbn [forallb] in Hs. apply andb_prop in Hs. destruct Hs as [Hc Hs].
    cbn [split_from]. destruct skip.
    + destruct (startswith sep (c :: s)).
      * constructor; [|apply IH; auto].
        rewrite forallb_forall in *. intros x Hx. apply Hcur. apply in_rev. exact Hx.
      * apply IH; [|exact Hs]. cbn. rewrite Hc. exact Hcur.
    + apply IH; assumption.
Qed.

Lemma strip_nonempty_blank (l : list str) :
  Forall (fun p => forallb isspace p = true) l -> strip_nonempty l = [].
Proof.
  unfold strip_nonempty. induction 1 as [|p l Hp _ IH]; [reflexivity|].
  cbn [List.map filter]. rewrite (strip_blank _ Hp). cbn. exact IH.
Qed.

Lemma paragraphs_blank (content : str) :
  forallb isspace content = true -> paragraphs_of content = [].
Proof.
  intros H. unfold paragraphs_of, split_sep. apply strip_nonempty_blank.
  apply split_from_blank; [reflexivity|exact H].
Qed.

(** The label of an entry whose density is 0. *)
Lemma assess_zero_density (keyword : str) (count : Z) :
  fst (assess keyword count 0) <> Optimal /\
  fst (assess keyword count 0) <> Overused.
Proof.
  unfold assess. destruct (count =? 0)%Z; [split; discriminate|].
  destruct (count =? 1)%Z; split; discriminate.
Qed.

(** X10. Content that consists of whitespace only is analysed like any
    other: its readability is Invalid (5 points), it has no words, no
    introduction and no conclusion, every keyword has density 0.0 and
    is neither Optimal nor Overused, and the keyword component of the
    score is 0. *)
Theorem blank_content (content : str) (target_keywords : list str)
    (min_word_count : Z) :
  forallb isspace content = true -> target_keywords <> [] ->
  exists a heading_score completeness_score,
    analyse content target_keywords (Some min_word_count) = Ok a /\
    Readability.score (Analysis.readability a) = Invalid /\
    Completeness.word_count (Analysis.completeness a) = 0%Z /\
    Completeness.has_intro (Analysis.completeness a) = false /\
    Completeness.has_conclusion (Analysis.completeness a) = false /\
    (forall k e, In (k, e) (Keywords.keywords (Analysis.keyword_analysis a)) ->
       KeywordEntry.density e = 0%Q /\
       KeywordEntry.assessment e <> Optimal /\
       KeywordEntry.assessment e <> Overused) /\
    Analysis.score_components a = [5%Z; heading_score; 0%Z; completeness_score].
Proof.
  intros Hblank Hkw.
  destruct (analyse_ok content min_word_count Hkw)
    as (r & ka & c & Hr & Hka & Hc & Ha).
  cbv zeta in Ha.
  pose proof (split_blank _ Hblank) as Hsplit.
  destruct (_analyze_readability_ok content) as (r' & Hr' & Hinv & _).
  assert (r' = r) by congruence. subst r'.
  assert (Hscore : Readability.score r = Invalid).
  { apply Hinv. right. rewrite Hsplit. reflexivity. }
  destruct (_analyze_content_completeness_ok content) as (rest & note & Hcc).
  destruct (Hcc min_word_count) as (c' & Hc' & Hwc & Hhi & Hhc & _).
  assert (c' = c) by congruence. subst c'.
  rewrite (paragraphs_blank _ Hblank) in Hhi, Hhc. rewrite Hsplit in Hwc.
  destruct (_check_keyword_usage_ok content target_keywords)
    as (ka' & Hka' & _ & _ & Hent).
  assert (ka' = ka) by congruence. subst ka'.
  assert (Hentries : forall k e, In (k, e) (Keywords.keywords ka) ->
            KeywordEntry.density e = 0%Q /\
            KeywordEntry.assessment e <> Optimal /\
            KeywordEntry.assessment e <> Overused).
  { intros k e Hin. specialize (Hent _ _ Hin).
    destruct (keyword_entry_ok content (lower content) (headings_text_of content)
                (intro_of content) k) as (d & e' & Hd & He' & _ & Hden & Hlab).
    assert (e' = e) by congruence. subst e'.
    rewrite _calculate_keyword_density_eq, Hsplit in Hd. cbn in Hd.
    injection Hd as <-. rewrite Hden, Hlab.
    split; [reflexivity|apply assess_zero_density]. }
  assert (Hopt : count_assessment Optimal (Keywords.keywords ka) = 0%Z).
  { unfold count_assessment.
    replace (filter _ _) with (@nil (str * KeywordEntry.t)); [reflexivity|].
    symmetry. clear - Hentries.
    induction (Keywords.keywords ka) as [|[k e] d IH]; [reflexivity|].
    cbn [filter snd].
    destruct (Hentries k e (or_introl eq_refl)) as (_ & Hno & _).
    destruct (KeywordEntry.assessment e); try congruence; cbn [usage_eqb];
      apply IH; intros k' e' Hin; apply (Hentries k' e'); right; exact Hin. }
  do 3 eexists. split; [exact Ha|].
  cbn [Analysis.readability Analysis.completeness Analysis.keyword_analysis
       Analysis.score_components].
  split; [exact Hscore|]. split; [exact Hwc|]. split; [exact Hhi|].
  split; [exact Hhc|]. split; [exact Hentries|].
  rewrite Hscore, Hopt, keyword_score_zero. reflexivity.
Qed.

End Blank.

Section Report.
Context {U : Unicode} {L : Library}.

(** The report opens with its title, the score and the line of the
    score's band. *)
Lemma format_result_opening (a : Analysis.t) (target_keywords : list str)
    (min_word_count : Z) :
  exists tail,
    format_result a target_keywords (Some min_word_count) =
    Ok (u "# Content Analysis Results" ++ newline ++ newline ++
        u "## Overall SEO Score: " ++ of_Z (Analysis.total_score a) ++
        u "/100" ++ newline ++ newline ++
        (if (90 <=? Analysis.total_score a)%Z then
           u "**Excellent!** Your content is very well optimized for SEO."
         else if (70 <=? Analysis.total_score a)%Z then
           u "**Good.** Your content is generally well optimized with some room for improvement."
         else if (50 <=? Analysis.total_score a)%Z then
           u "**Moderate.** Your content needs several improvements to be fully optimized."
         else
           u "**Needs Work.** Your content requires significant optimization to perform well in search.") ++
        newline ++ newline ++ tail).
Proof.
  unfold format_result. rewrite word_count_line_ok. cbn [bind]. cbv zeta.
  destruct (90 <=? Analysis.total_score a)%Z;
    [|destruct (70 <=? Analysis.total_score a)%Z;
      [|destruct (50 <=? Analysis.total_score a)%Z]];
    destruct (10 <? len (list_of_set (Analysis.all_recommendations a)))%Z;
    eexists; repeat rewrite <- app_assoc; reflexivity.
Qed.

(** X11. What [_run] returns is either a string that starts with
    "Error", or the report of a request whose analysis returned: a
    string that starts with the title, the line of the total score out
    of 100 and the line of its band (Excellent from 90, Good from 70,
    Moderate from 50, Needs Work below). *)
Theorem run_result_shape (tool_input : str) :
  (exists tail, _run tool_input = u "Error" ++ tail) \/
  (exists d a tail,
     json_loads tool_input = Ok (JObject d) /\
     analyse (get (content d) []) (get (target_keywords d) [])
             (get (min_word_count d) (Some 300%Z)) = Ok a /\
     _run tool_input =
       u "# Content Analysis Results" ++ newline ++ newline ++
       u "## Overall SEO Score: " ++ of_Z (Analysis.total_score a) ++
       u "/100" ++ newline ++ newline ++
       (if (90 <=? Analysis.total_score a)%Z then
          u "**Excellent!** Your content is very well optimized for SEO."
        else if (70 <=? Analysis.total_score a)%Z then
          u "**Good.** Your content is generally well optimized with some room for improvement."
        else if (50 <=? Analysis.total_score a)%Z then
          u "**Moderate.** Your content needs several improvements to be fully optimized."
        else
          u "**Needs Work.** Your content requires significant optimization to perform well in search.") ++
       newline ++ newline ++ tail).
Proof.
  unfold _run, _run_try.
  destruct (json_loads tool_input) as [[d|type_name]|e] eqn:Hload; cbn [bind as_dict].
  - destruct (get (content d) []) as [|x content'] eqn:Ec.
    { left. eexists. reflexivity. }
    destruct (get (target_keywords d) []) as [|k kws] eqn:Ek.
    { left. eexists. reflexivity. }
    destruct (get (min_word_count d) (Some 300%Z)) as [m|] eqn:Em.
    + assert (Hkw : k :: kws <> []) by discriminate.
      destruct (analyse_ok (x :: content') m Hkw) as (r & ka & c & _ & _ & _ & Ha).
      cbv zeta in Ha. rewrite Ha. cbn [bind].
      match goal with
      | |- context [format_result ?a0 _ _] =>
          destruct (format_result_opening a0 (k :: kws) m) as [tail Hrep];
          rewrite Hrep; right; exists d, a0, tail
      end.
      split; [reflexivity|]. split; [rewrite Ec, Ek, Em; exact Ha|]. reflexivity.
    + rewrite analyse_null. left. eexists. reflexivity.
  - left. eexists. reflexivity.
  - left. destruct e; eexists; reflexivity.
Qed.

End Report.

(** ** The further theorems at concrete requests *)

Lemma distinct_keywords_in_order_witness :
  NoDup [u "seo"; u "content"] /\
  exists ka,
    _check_keyword_usage sample_content [u "seo"; u "content"] = Ok ka /\
    keys (Keywords.keywords ka) = [u "seo"; u "content"] /\
    Keywords.recommendations ka =
      flat_map (fun kv => KeywordEntry.recommendations (snd kv))
               (Keywords.keywords ka).
Proof.
  assert (Hnd : NoDup [u "seo"; u "content"]).
  { constructor; [intros [H|[]]; discriminate H|].
    constructor; [intros []|constructor]. }
  split; [exact Hnd|].
  exact (distinct_keywords_in_order sample_content Hnd).
Defined.

Lemma repeated_keyword_repeats_recommendations_witness :
  In (u "seo") [u "seo"; u "content"] /\
  exists ka ka' e,
    _check_keyword_usage sample_content [u "seo"; u "content"] = Ok ka /\
    _check_keyword_usage sample_content ([u "seo"; u "content"] ++ [u "seo"]) =
      Ok ka' /\
    In (u "seo", e) (Keywords.keywords ka) /\
    Keywords.keywords ka' = Keywords.keywords ka /\
    Keywords.recommendations ka' =
      Keywords.recommendations ka ++ KeywordEntry.recommendations e.
Proof.
  assert (Hin : In (u "seo") [u "seo"; u "content"]) by (left; reflexivity).
  split; [exact Hin|].
  exact (repeated_keyword_repeats_recommendations sample_content _ _ Hin).
Defined.

Lemma no_keyword_found_witness :
  [u "backlink"; u "anchor"] <> [] /\ NoDup [u "backlink"; u "anchor"] /\
  (forall k, In k [u "backlink"; u "anchor"] ->
     count (lower sample_content) (lower k) = 0%nat) /\
  exists a readability_score heading_score completeness_score,
    analyse sample_content [u "backlink"; u "anchor"] (Some 300%Z) = Ok a /\
    Keywords.overall_assessment (Analysis.keyword_analysis a) =
      u "No target keywords found in content." /\
    Keywords.recommendations (Analysis.keyword_analysis a) =
      List.map (fun k => u "Add the keyword '" ++ k ++ u "' to your content.")
               [u "backlink"; u "anchor"] /\
    Analysis.score_components a =
      [readability_score; heading_score; 0%Z; completeness_score].
Proof.
  assert (Hne : [u "backlink"; u "anchor"] <> []) by discriminate.
  assert (Hnd : NoDup [u "backlink"; u "anchor"]).
  { constructor; [intros [H|[]]; discriminate H|].
    constructor; [intros []|constructor]. }
  assert (Habs : forall k, In k [u "backlink"; u "anchor"] ->
            count (lower sample_content) (lower k) = 0%nat).
  { intros k [<-|[<-|[]]]; vm_compute; reflexivity. }
  split; [exact Hne|]. split; [exact Hnd|]. split; [exact Habs|].
  exact (no_keyword_found sample_content 300 Hne Hnd Habs).
Defined.

Lemma full_keyword_score_witness :
  [u "seo"] <> [] /\ (len [u "seo"] <= 2 ^ 50)%Z /\
  exists a readability_score heading_score keyword_score completeness_score,
    analyse hundred_words [u "seo"] (Some 300%Z) = Ok a /\
    Analysis.score_components a =
      [readability_score; heading_score; keyword_score; completeness_score] /\
    (keyword_score = 25%Z <->
     count_assessment Optimal (Keywords.keywords (Analysis.keyword_analysis a)) =
     len [u "seo"]) /\
    (keyword_score = 25%Z ->
     NoDup [u "seo"] /\
     (forall k e, In (k, e) (Keywords.keywords (Analysis.keyword_analysis a)) ->
        KeywordEntry.assessment e = Optimal) /\
     Keywords.overall_assessment (Analysis.keyword_analysis a) =
       u "All keywords are used optimally.").
Proof.
  assert (Hne : [u "seo"] <> []) by discriminate.
  assert (Hlen : (len [u "seo"] <= 2 ^ 50)%Z) by (vm_compute; discriminate).
  split; [exact Hne|]. split; [exact Hlen|].
  exact (full_keyword_score hundred_words 300 Hne Hlen).
Defined.

Lemma total_score_floor_witness :
  [u "seo"] <> [] /\
  exists a,
    analyse sample_content [u "seo"] (Some 300%Z) = Ok a /\
    (5 <= Analysis.total_score a)%Z /\
    (Readability.score (Analysis.readability a) <> Good ->
     (Analysis.total_score a <= 90)%Z) /\
    (Readability.score (Analysis.readability a) = Difficult \/
     Readability.score (Analysis.readability a) = Invalid ->
     (Analysis.total_score a <= 80)%Z).
Proof.
  assert (Hne : [u "seo"] <> []) by discriminate.
  split; [exact Hne|].
  exact (total_score_floor sample_content 300 Hne).
Defined.

Lemma lower_threshold_never_lowers_score_witness :
  [u "seo"] <> [] /\ (5 <= 300)%Z /\
  exists a1 a2,
    analyse sample_content [u "seo"] (Some 5%Z) = Ok a1 /\
    analyse sample_content [u "seo"] (Some 300%Z) = Ok a2 /\
    (Analysis.total_score a1 = Analysis.total_score a2 \/
     Analysis.total_score a1 = (Analysis.total_score a2 + 10)%Z).
Proof.
  assert (Hne : [u "seo"] <> []) by discriminate.
  assert (Hle : (5 <= 300)%Z) by lia.
  split; [exact Hne|]. split; [exact Hle|].
  exact (lower_threshold_never_lowers_score sample_content Hne Hle).
Defined.

Lemma complete_content_witness :
  [u "seo"] <> [] /\
  exists a readability_score heading_score keyword_score completeness_score,
    analyse sample_content [u "seo"] (Some 10%Z) = Ok a /\
    Analysis.score_components a =
      [readability_score; heading_score; keyword_score; completeness_score] /\
    let c := Analysis.completeness a in
    (Completeness.recommendations c = [] <->
     (10 <= Completeness.word_count c)%Z /\
     Completeness.has_intro c = true /\
     Completeness.has_conclusion c = true /\
     Completeness.has_cta c = true /\
     (Completeness.has_bullet_points c = true \/
      (Completeness.word_count c <= 500)%Z)) /\
    (Completeness.recommendations c = [] <->
     Completeness.assessment c =
       u "Content structure assessment: Content is well-structured and complete.") /\
    (completeness_score = 25%Z -> Completeness.recommendations c = []) /\
    (Completeness.recommendations c = [] -> (22 <= completeness_score)%Z) /\
    (length (Completeness.recommendations c) <= 5)%nat.
Proof.
  assert (Hne : [u "seo"] <> []) by discriminate.
  split; [exact Hne|].
  exact (complete_content sample_content 10 Hne).
Defined.

Lemma blank_content_witness :
  forallb isspace (u "  " ++ newline) = true /\ [u "seo"] <> [] /\
  exists a heading_score completeness_score,
    analyse (u "  " ++ newline) [u "seo"] (Some 300%Z) = Ok a /\
    Readability.score (Analysis.readability a) = Invalid /\
    Completeness.word_count (Analysis.completeness a) = 0%Z /\
    Completeness.has_intro (Analysis.completeness a) = false /\
    Completeness.has_conclusion (Analysis.completeness a) = false /\
    (forall k e, In (k, e) (Keywords.keywords (Analysis.keyword_analysis a)) ->
       KeywordEntry.density e = 0%Q /\
       KeywordEntry.assessment e <> Optimal /\
       KeywordEntry.assessment e <> Overused) /\
    Analysis.score_components a = [5%Z; heading_score; 0%Z; completeness_score].
Proof.
  assert (Hblank : forallb isspace (u "  " ++ newline) = true)
    by (vm_compute; reflexivity).
  assert (Hne : [u "seo"] <> []) by discriminate.
  split; [exact Hblank|]. split; [exact Hne|].
  exact (blank_content (u "  " ++ newline) 300 Hblank Hne).
Defined.

(** * The density and the labels, against the words of the spec *)

Lemma startswith_firstn (k s : str) :
  startswith k s = true -> firstn (length k) s = k.
Proof.
  revert s. induction k as [|a k IH]; intros [|b s]; cbn; try reflexivity;
    try discriminate.
  intros H. apply andb_prop in H. destruct H as [Hab H].
  apply N.eqb_eq in Hab. subst b. rewrite (IH _ H). reflexivity.
Qed.

Lemma rev_last (k : str) (d : char) :
  k <> [] -> rev k = last k d :: rev (removelast k).
Proof.
  intros Hk. rewrite (app_removelast_last d Hk) at 1.
  rewrite rev_app_distr. reflexivity.
Qed.

Section Refinement.
Context {U : Unicode}.

Lemma free_before_word_at (bef : str) :
  free_before (hd_error bef) = negb (Re.word_at bef).
Proof. destruct bef; reflexivity. Qed.

Lemma free_after_word_at (aft : str) :
  free_after aft = negb (Re.word_at aft).
Proof. destruct aft; reflexivity. Qed.

(** For a keyword that begins and ends with a word character the
    keyword pattern matches at a position exactly when the keyword
    stands there as a whole word, and the match is the keyword. *)
Lemma match_at_whole_word (k bef aft : str) :
  word_ends k = true ->
  if whole_word_here k (hd_error bef) aft
  then exists m,
         Re.match_at (cat [Re.WordB; Re.escape k; Re.WordB]) bef aft = Some m /\
         (Re.m_end m - Re.m_start m = length k)%nat
  else Re.match_at (cat [Re.WordB; Re.escape k; Re.WordB]) bef aft = None.
Proof.
  intros Hends. unfold whole_word_here, Re.match_at, cat.
  cbn [fold_right Re.rmatch].
  change (Re.at_boundary {| Re.before := bef; Re.after := aft; Re.grp := None |})
    with (xorb (Re.word_at bef) (Re.word_at aft)).
  destruct (startswith k aft) eqn:Hk; cbn [andb].
  - destruct k as [|c k']; [discriminate Hends|].
    cbn [word_ends] in Hends. apply andb_prop in Hends.
    destruct Hends as [Hfirst Hlast].
    assert (Haft : Re.word_at aft = true).
    { destruct aft as [|x aft']; [discriminate Hk|]. cbn [startswith] in Hk.
      apply andb_prop in Hk. destruct Hk as [E _]. apply N.eqb_eq in E.
      subst x. exact Hfirst. }
    rewrite Haft, xorb_true_r, free_before_word_at.
    destruct (Re.word_at bef); cbn [negb andb]; [reflexivity|].
    rewrite rmatch_escape. cbn [Re.after Re.before Re.grp]. rewrite Hk.
    unfold Re.at_boundary. cbn [Re.before Re.after].
    rewrite (startswith_firstn _ _ Hk).
    assert (Hw : Re.word_at (rev (c :: k') ++ bef) = true).
    { rewrite (@rev_last (c :: k') c) by discriminate. exact Hlast. }
    assert (Hl : (length (rev (c :: k') ++ bef) - length bef =
                  length (c :: k'))%nat).
    { rewrite length_app, length_rev. lia. }
    rewrite Hw, xorb_true_l, free_after_word_at.
    destruct (Re.word_at (skipn (length (c :: k')) aft)); cbn [negb];
      [reflexivity|].
    eexists. split; [reflexivity|]. exact Hl.
  - destruct (xorb _ _); [|reflexivity].
    rewrite rmatch_escape. cbn [Re.after]. rewrite Hk. reflexivity.
Qed.

(** The scan of [re.findall] with the keyword pattern finds the whole
    words, one after the other. *)
Lemma scan_whole_words (k aft : str) :
  word_ends k = true ->
  forall (skip : nat) (bef : str),
    length (Re.scan (cat [Re.WordB; Re.escape k; Re.WordB]) skip bef aft) =
    whole_words_from k skip (hd_error bef) aft.
Proof.
  intros Hends. induction aft as [|c aft IH]; intros skip bef.
  - destruct skip; cbn [Re.scan whole_words_from length]; [|reflexivity].
    pose proof (@match_at_whole_word k bef [] Hends) as H.
    assert (E : whole_word_here k (hd_error bef) [] = false).
    { unfold whole_word_here. destruct k; [discriminate Hends|reflexivity]. }
    rewrite E in H. rewrite H. reflexivity.
  - destruct skip; cbn [Re.scan whole_words_from].
    + pose proof (@match_at_whole_word k bef (c :: aft) Hends) as H.
      destruct (whole_word_here k (hd_error bef) (c :: aft)).
      * destruct H as (m & Hm & Hlen). rewrite Hm. cbn [length].
        rewrite IH. cbn [hd_error]. rewrite Hlen. reflexivity.
      * rewrite H. rewrite IH. reflexivity.
    + rewrite IH. reflexivity.
Qed.

(** The matches counted for the density are the whole-word matches
    in the spec's sense, for a keyword that begins and ends with a
    word character once it is in lower case. *)
Lemma whole_word_matches_spec (content keyword : str) :
  word_ends (lower keyword) = true ->
  whole_word_matches content keyword = spec_whole_word_matches content keyword.
Proof.
  intros Hends. unfold whole_word_matches, spec_whole_word_matches,
    keyword_pattern, len, Re.findall, Re.finditer.
  rewrite length_map. rewrite (@scan_whole_words (lower keyword) (lower content) Hends). reflexivity.
Qed.

(** C4, amended. For a keyword that begins and ends with a word
    character once it is in lower case, the density that an entry of
    the keyword results reports is the number of its whole-word
    matches (in the spec's sense, whatever the case of the letters)
    divided by the number of words of the content, times 100, computed
    in float arithmetic and rounded to two decimals; so it is 2.0 for
    content of 100 words with 2 whole-word matches. For every keyword
    it is 0 for content without words. *)
Theorem reported_density (content : str) (target_keywords : list str) :
  exists ka,
    _check_keyword_usage content target_keywords = Ok ka /\
    forall keyword e, In (keyword, e) (Keywords.keywords ka) ->
      let total_words := len (split content) in
      let matches := spec_whole_word_matches content keyword in
      (total_words = 0%Z -> KeywordEntry.density e = 0%Q) /\
      (word_ends (lower keyword) = true ->
       (total_words <> 0%Z ->
        exists quotient,
          truediv matches total_words = Ok quotient /\
          _calculate_keyword_density content keyword =
            Ok (Float.mul quotient 100) /\
          KeywordEntry.density e = Float.round (Float.mul quotient 100) 2) /\
       (total_words = 100%Z -> matches = 2%Z ->
        KeywordEntry.density e = 2%Q)).
Proof.
  destruct (entry_density content target_keywords) as (ka & Hka & H).
  exists ka. split; [exact Hka|]. intros keyword e Hin. cbv zeta.
  destruct (H keyword e Hin) as (Hquot & Hzero & Htwo).
  split; [exact Hzero|]. intros Hends.
  rewrite <- (whole_word_matches_spec content keyword Hends).
  split; [exact Hquot|exact Htwo].
Qed.

End Refinement.

Lemma reported_density_witness :
  word_ends (lower (u "SEO")) = true /\
  len (split hundred_words) = 100%Z /\
  spec_whole_word_matches hundred_words (u "SEO") = 2%Z /\
  exists ka e,
    _check_keyword_usage hundred_words [u "SEO"] = Ok ka /\
    Keywords.keywords ka = [(u "SEO", e)] /\
    KeywordEntry.density e = 2%Q.
Proof.
  assert (Hends : word_ends (lower (u "SEO")) = true) by (vm_compute; reflexivity).
  split; [exact Hends|].
  split; [vm_compute; reflexivity|]. split; [vm_compute; reflexivity|].
  destruct (reported_density hundred_words [u "SEO"]) as (ka & Hka & H).
  assert (Hk : exists e, Keywords.keywords ka = [(u "SEO", e)]).
  { assert (E : _check_keyword_usage hundred_words [u "SEO"] =
                Ok ka) by exact Hka.
    vm_compute in E. injection E as E. rewrite <- E. eexists. reflexivity. }
  destruct Hk as [e He]. exists ka, e. split; [exact Hka|]. split; [exact He|].
  destruct (H (u "SEO") e) as (_ & Hword).
  { rewrite He. left. reflexivity. }
  apply (proj2 (Hword Hends)).
  - vm_compute. reflexivity.
  - vm_compute. reflexivity.
Defined.

(** C4, counterexample. For the content "a b c" and the keyword "a"
    the count is 1 and there are 3 words, but the reported density is
    33.33: neither the exact quotient times 100 nor the float that
    [1 / 3 * 100] evaluates to. And for a hundred words with the
    keyword "c++" twice among them, which the entry counts twice, the
    reported density is 0.0 and not 2.0: the pattern of
    [_calculate_keyword_density] matches nowhere. *)
Lemma density_is_not_the_quotient :
  (exists ka e,
     _check_keyword_usage (u "a b c") [u "a"] = Ok ka /\
     Keywords.keywords ka = [(u "a", e)] /\
     KeywordEntry.count e = 1%Z /\
     len (split (u "a b c")) = 3%Z /\
     ~ (KeywordEntry.density e == inject_Z (KeywordEntry.count e) / 3 * 100)%Q /\
     ~ (KeywordEntry.density e ==
        Float.mul (Float.fl (inject_Z (KeywordEntry.count e) / 3)) 100)%Q) /\
  (exists ka e,
     _check_keyword_usage plus_words [u "c++"] = Ok ka /\
     Keywords.keywords ka = [(u "c++", e)] /\
     len (split plus_words) = 100%Z /\
     KeywordEntry.count e = 2%Z /\
     spec_whole_word_matches plus_words (u "c++") = 2%Z /\
     whole_word_matches plus_words (u "c++") = 0%Z /\
     KeywordEntry.density e = 0%Q /\
     ~ (KeywordEntry.density e == 2)%Q).
Proof.
  split.
  - do 2 eexists. split; [vm_compute; reflexivity|].
    cbn [Keywords.keywords]. split; [reflexivity|].
    cbn [KeywordEntry.count KeywordEntry.density].
    repeat split; vm_compute; congruence.
  - do 2 eexists. split; [vm_compute; reflexivity|].
    cbn [Keywords.keywords]. split; [reflexivity|].
    cbn [KeywordEntry.count KeywordEntry.density].
    repeat split; vm_compute; congruence.
Qed.

(** The pattern also matches the keyword "c++" inside "c++x", where
    it is no whole word: the two words "c++x y" have the density 50.0
    for it. *)
Example symbol_keyword_inside_word :
  spec_whole_word_matches (u "c++x y") (u "c++") = 0%Z /\
  whole_word_matches (u "c++x y") (u "c++") = 1%Z /\
  _calculate_keyword_density (u "c++x y") (u "c++") = Ok 50%Q.
Proof. repeat split; vm_compute; reflexivity. Qed.

(** C5, counterexample. The rules do not hold of the density that
    the entry carries. With the keyword 7 times in 233 words the entry
    carries 3.0, which is not above 3.0 and not from 0.5 to 2.5, and
    is labelled Overused, not Present. With the keyword twice in 401
    words it carries 0.5, and with the keyword 13 times in 519 words
    2.5, both from 0.5 to 2.5, and is labelled Present, not
    Optimal. *)
Lemma label_reads_unrounded_density :
  (exists ka e,
     _check_keyword_usage seven_of_233 [u "seo"] = Ok ka /\
     Keywords.keywords ka = [(u "seo", e)] /\
     len (split seven_of_233) = 233%Z /\
     KeywordEntry.count e = 7%Z /\
     KeywordEntry.density e = 3%Q /\
     ~ (3 < KeywordEntry.density e)%Q /\
     ~ ((1 # 2 <= KeywordEntry.density e)%Q /\
        (KeywordEntry.density e <= 5 # 2)%Q) /\
     KeywordEntry.assessment e = Overused) /\
  (exists ka e,
     _check_keyword_usage two_of_401 [u "seo"] = Ok ka /\
     Keywords.keywords ka = [(u "seo", e)] /\
     len (split two_of_401) = 401%Z /\
     KeywordEntry.count e = 2%Z /\
     KeywordEntry.density e = (1 # 2)%Q /\
     ~ (3 < KeywordEntry.density e)%Q /\
     (1 # 2 <= KeywordEntry.density e)%Q /\
     (KeywordEntry.density e <= 5 # 2)%Q /\
     KeywordEntry.assessment e = Present) /\
  (exists ka e,
     _check_keyword_usage thirteen_of_519 [u "seo"] = Ok ka /\
     Keywords.keywords ka = [(u "seo", e)] /\
     len (split thirteen_of_519) = 519%Z /\
     KeywordEntry.count e = 13%Z /\
     KeywordEntry.density e = (5 # 2)%Q /\
     ~ (3 < KeywordEntry.density e)%Q /\
     (1 # 2 <= KeywordEntry.density e)%Q /\
     (KeywordEntry.density e <= 5 # 2)%Q /\
     KeywordEntry.assessment e = Present).
Proof.
  split; [|split].
  - do 2 eexists. split; [vm_compute; reflexivity|].
    cbn [Keywords.keywords]. split; [reflexivity|].
    cbn [KeywordEntry.count KeywordEntry.density KeywordEntry.assessment].
    split; [vm_compute; reflexivity|]. split; [reflexivity|].
    split; [reflexivity|]. split; [vm_compute; intros H; discriminate H|].
    split; [|reflexivity]. intros [_ H]. vm_compute in H. apply H. reflexivity.
  - do 2 eexists. split; [vm_compute; reflexivity|].
    cbn [Keywords.keywords]. split; [reflexivity|].
    cbn [KeywordEntry.count KeywordEntry.density KeywordEntry.assessment].
    split; [vm_compute; reflexivity|]. split; [reflexivity|].
    split; [reflexivity|]. split; [vm_compute; intros H; discriminate H|].
    split; [vm_compute; discriminate|]. split; [vm_compute; discriminate|].
    reflexivity.
  - do 2 eexists. split; [vm_compute; reflexivity|].
    cbn [Keywords.keywords]. split; [reflexivity|].
    cbn [KeywordEntry.count KeywordEntry.density KeywordEntry.assessment].
    split; [vm_compute; reflexivity|]. split; [reflexivity|].
    split; [reflexivity|]. split; [vm_compute; intros H; discriminate H|].
    split; [vm_compute; discriminate|]. split; [vm_compute; discriminate|].
    reflexivity.
Qed.
